(** * The cart / order store of metall-it-front

    A shallow embedding of the React context [CartProvider]
    (the cart list, the order history, the six operations the context
    exposes, the two [useState] initialisers and the two persistence
    effects) and of the login form, followed by their properties.

    Conventions of the embedding.

    - A TypeScript [number] that holds a quantity, a price or an amount is
      an IEEE 754 binary64 value, Rocq's primitive [float]: [+], [*], [<] and
      [>] are the operations of the processor, with their rounding, their
      infinities, their signed zeros and [NaN].
    - An identifier is the integer it denotes, a [Z], in the store and in
      what is stored; so are the clock value and the random value an order
      identifier is made from.
    - An optional field ([field?: T]) is an [option]: [None] is [undefined].
    - [setItems (prev => f prev)] is the function [f] on the cart list; the
      [items] a handler closes over is the cart list of the state the
      handler is run on.
    - [alert] and [onCheckoutSuccess] are recorded as a trace of events.
    - [Date.now ()], [Math.floor (Math.random () * 1000)] and
      [new Date ().toLocaleString ()] are read from an environment.
    - [localStorage] holds, under each key, the JSON tree that
      [JSON.stringify] writes and [JSON.parse] reads back. *)

From Stdlib Require Import ZArith QArith Lia Ascii Floats Uint63.
From stdpp Require Import base decidable option list strings pretty gmap.

Local Open Scope string_scope.
Local Open Scope list_scope.
Local Open Scope Z_scope.

#[local] Set Warnings "-inexact-float".

(** ** Data model *)

Module Supplier.
Record t : Type := mk { name : string; price : float }.
End Supplier.

Module CartItem.
Record t : Type := mk {
  id : Z;
  name : string;
  quantity : float;
  availableSuppliers : option (list Supplier.t);
  selectedSupplierName : option string
}.

(** [{ ...item, quantity: q }] *)
Definition with_quantity (item : t) (q : float) : t :=
  mk (id item) (name item) q (availableSuppliers item) (selectedSupplierName item).

(** [{ ...item, selectedSupplierName: s }] *)
Definition with_selectedSupplierName (item : t) (s : option string) : t :=
  mk (id item) (name item) (quantity item) (availableSuppliers item) s.
End CartItem.

Module OrderItem.
Record t : Type := mk {
  productId : Z;
  productName : string;
  quantity : float;
  supplierName : string;
  supplierPrice : float;
  itemTotal : float
}.
End OrderItem.

Module Order.
Record t : Type := mk {
  id : string;
  date : string;
  items : list OrderItem.t;
  totalAmount : float
}.
End Order.

(** The two pieces of React state of [CartProvider]. *)
Record Store : Type := mkStore {
  items : list CartItem.t;
  orders : list Order.t
}.

(** ** JavaScript helpers *)

(** Truthiness of an optional string: [undefined] and the empty string are
    falsy. *)
Definition truthy (s : option string) : bool :=
  match s with
  | Some s => bool_decide (s ≠ "")
  | None => false
  end.

(** The callback of the two [reduce] calls:
    [(currentSupplier.price < minSupplier.price) ? currentSupplier : minSupplier]. *)
Definition cheaper (minSupplier currentSupplier : Supplier.t) : Supplier.t :=
  if PrimFloat.ltb (Supplier.price currentSupplier) (Supplier.price minSupplier)
  then currentSupplier else minSupplier.

(** [suppliers.reduce (cheaper, suppliers[0])] on the non-empty list
    [first :: rest]: the fold visits [first] again. *)
Definition cheapestSupplier (first : Supplier.t) (rest : list Supplier.t) : Supplier.t :=
  foldl cheaper first (first :: rest).

(** ** Initialisation of the cart list: the callback of [loadedItems.map] *)

Definition loadItem (item : CartItem.t) : CartItem.t :=
  match CartItem.availableSuppliers item with
  | Some (first :: rest) =>
      let cheapest := cheapestSupplier first rest in
      if negb (truthy (CartItem.selectedSupplierName item))
         || negb (bool_decide (CartItem.selectedSupplierName item
                               = Some (Supplier.name cheapest)))
      then CartItem.with_selectedSupplierName item (Some (Supplier.name cheapest))
      else item
  | _ => item
  end.

(** ** The cart operations *)

(** The test of [prevItems.findIndex]. *)
Definition sameLine (product item : CartItem.t) : Prop :=
  CartItem.id item = CartItem.id product
  ∧ CartItem.selectedSupplierName item = CartItem.selectedSupplierName product.

#[global] Instance sameLine_dec product item : Decision (sameLine product item).
Proof. unfold sameLine. apply _. Defined.

(** [itemToAdd] of [addToCart]: the copy of the product, with the cheapest
    supplier selected when it has offers and a falsy selection. *)
Definition itemToAdd (product : CartItem.t) : CartItem.t :=
  match CartItem.availableSuppliers product with
  | Some (first :: rest) =>
      if negb (truthy (CartItem.selectedSupplierName product))
      then CartItem.with_selectedSupplierName product
             (Some (Supplier.name (cheapestSupplier first rest)))
      else product
  | _ => product
  end.

(** [list_find] gives the first index that passes the test together with
    the entry at that index, which is [newItems[existingItemIndex]]. *)
Definition addToCart (product : CartItem.t) (prevItems : list CartItem.t)
  : list CartItem.t :=
  match list_find (sameLine product) prevItems with
  | Some (existingItemIndex, existing) =>
      <[existingItemIndex :=
          CartItem.with_quantity existing
            (PrimFloat.add (CartItem.quantity existing) (CartItem.quantity product))]>
        prevItems
  | None => prevItems ++ [itemToAdd product]
  end.

Definition removeFromCart (productId : Z) (prevItems : list CartItem.t)
  : list CartItem.t :=
  filter (λ item, CartItem.id item ≠ productId) prevItems.

Definition setQuantity (productId : Z) (quantity : float) (item : CartItem.t)
  : CartItem.t :=
  if decide (CartItem.id item = productId)
  then CartItem.with_quantity item quantity else item.

(** [item.quantity > 0] is the comparison [0 < item.quantity] of doubles,
    which is false of [NaN] as well. *)
Definition updateQuantity (productId : Z) (quantity : float)
  (prevItems : list CartItem.t) : list CartItem.t :=
  filter (λ item, PrimFloat.ltb 0 (CartItem.quantity item) = true)
         (setQuantity productId quantity <$> prevItems).

Definition clearCart : list CartItem.t := [].

Definition setSupplier (itemId : Z) (supplierName : option string)
  (item : CartItem.t) : CartItem.t :=
  if decide (CartItem.id item = itemId)
  then CartItem.with_selectedSupplierName item supplierName else item.

Definition selectSupplierForItem (itemId : Z) (supplierName : option string)
  (prevItems : list CartItem.t) : list CartItem.t :=
  setSupplier itemId supplierName <$> prevItems.

(** ** Checkout *)

(** The three messages of [placeOrder], in the order of the source. *)
Inductive AlertKind : Type :=
  | CartIsEmpty
  | SupplierNotSelected
  | NothingToOrder.

#[global] Instance AlertKind_eq_dec : EqDecision AlertKind.
Proof. solve_decision. Defined.

Inductive Event : Type :=
  | Alert (a : AlertKind)
  | CheckoutSuccess.

#[global] Instance Event_eq_dec : EqDecision Event.
Proof. solve_decision. Defined.

Record Env : Type := mkEnv {
  now : Z;              (* Date.now () *)
  random1000 : Z;       (* Math.floor (Math.random () * 1000) *)
  localeString : string (* new Date ().toLocaleString () *)
}.

(** [item.availableSuppliers?.find (s => s.name === item.selectedSupplierName)] *)
Definition selectedSupplier (item : CartItem.t) : option Supplier.t :=
  match CartItem.availableSuppliers item with
  | Some suppliers =>
      snd <$> list_find
        (λ s, Some (Supplier.name s) = CartItem.selectedSupplierName item) suppliers
  | None => None
  end.

Definition orderItemOf (item : CartItem.t) (s : Supplier.t) : OrderItem.t :=
  OrderItem.mk (CartItem.id item) (CartItem.name item) (CartItem.quantity item)
    (Supplier.name s) (Supplier.price s)
    (PrimFloat.mul (Supplier.price s) (CartItem.quantity item)).

(** The body of [items.forEach], on the pair [(newOrderItems, orderTotal)]. *)
Definition orderStep (acc : list OrderItem.t * float) (item : CartItem.t)
  : list OrderItem.t * float :=
  match selectedSupplier item with
  | Some s =>
      let line := orderItemOf item s in
      (acc.1 ++ [line], PrimFloat.add acc.2 (OrderItem.itemTotal line))
  | None => acc
  end.

(** *** [parseFloat (x.toFixed (2))]

    [toFixed (2)] works on the exact value of the double: it writes the
    integer [n] for which [n / 100] is nearest to that value, the larger one
    of two, as a decimal with two places, after the sign of a negative [x]
    (below 1e21; from there on, and for [NaN] and the infinities, it writes
    the number as [String] does).  [parseFloat] reads the text back as the
    double nearest to it.

    A finite double is [m * 2 ^ e] for its mantissa [m] and exponent [e]. *)
Definition exactValue (m : positive) (e : Z) : Q :=
  match e with
  | Z0 => Zpos m # 1
  | Zpos p => (Zpos m * 2 ^ Zpos p) # 1
  | Zneg p => Zpos m # (2 ^ p)
  end.

(** The integer nearest to a hundred times [m * 2 ^ e], the larger one of
    two. *)
Definition cents (m : positive) (e : Z) : Z :=
  match e with
  | Zneg p => (200 * Zpos m + Zpos (2 ^ p)) / (2 * Zpos (2 ^ p))
  | _ => 100 * Zpos m * 2 ^ e
  end.

(** The double nearest to [n / 100], for [n] below [2 ^ 53]: such an [n]
    is a double, [100] is one, and the division of doubles rounds their exact
    quotient to the nearest double, as reading the decimal [n / 100] does. *)
Definition centsToNumber (n : Z) : float :=
  PrimFloat.div (PrimFloat.of_uint63 (Uint63.of_Z n)) 100.

Definition signed (negative : bool) (r : float) : float :=
  if negative then PrimFloat.opp r else r.

(** From [2 ^ 46] on, two neighbouring doubles are more than a hundredth
    apart and [n / 100] is within half a hundredth of [x], so the text reads
    back as [x] itself; below, [n] is less than [2 ^ 53].  Both zeros are
    written [0.00]. *)
Definition toFixed2 (x : float) : float :=
  match Prim2SF x with
  | S754_finite negative m e =>
      if Qle_bool (2 ^ 46 # 1) (exactValue m e) then x
      else signed negative (centsToNumber (cents m e))
  | S754_zero _ => 0
  | S754_infinity _ => x
  | S754_nan => x
  end.

Definition orderId (env : Env) : string :=
  "ORDER-" +:+ pretty (now env) +:+ "-" +:+ pretty (random1000 env).

Definition placeOrder (env : Env) (st : Store) : Store * list Event :=
  if decide (length (items st) = 0%nat) then (st, [Alert CartIsEmpty])
  else if negb (forallb (λ item, truthy (CartItem.selectedSupplierName item)) (items st))
  then (st, [Alert SupplierNotSelected])
  else
    let '(newOrderItems, orderTotal) := foldl orderStep ([], 0%float) (items st) in
    if decide (length newOrderItems = 0%nat) then (st, [Alert NothingToOrder])
    else
      let newOrder :=
        Order.mk (orderId env) (localeString env) newOrderItems (toFixed2 orderTotal) in
      (mkStore clearCart (orders st ++ [newOrder]), [CheckoutSuccess]).

(** ** The operations of the context, as steps of the store *)

Inductive Op : Type :=
  | AddToCart (product : CartItem.t)
  | RemoveFromCart (productId : Z)
  | UpdateQuantity (productId : Z) (quantity : float)
  | ClearCart
  | SelectSupplierForItem (itemId : Z) (supplierName : option string)
  | PlaceOrder (env : Env).

Definition setItems (f : list CartItem.t → list CartItem.t) (st : Store) : Store :=
  mkStore (f (items st)) (orders st).

Definition step (op : Op) (st : Store) : Store * list Event :=
  match op with
  | AddToCart product => (setItems (addToCart product) st, [])
  | RemoveFromCart productId => (setItems (removeFromCart productId) st, [])
  | UpdateQuantity productId quantity =>
      (setItems (updateQuantity productId quantity) st, [])
  | ClearCart => (setItems (λ _, clearCart) st, [])
  | SelectSupplierForItem itemId supplierName =>
      (setItems (selectSupplierForItem itemId supplierName) st, [])
  | PlaceOrder env => placeOrder env st
  end.

(** A run of operations, with the events of all of them. *)
Definition run (ops : list Op) (st : Store) : Store * list Event :=
  foldl (λ acc op, let '(st', evs) := step op acc.1 in (st', acc.2 ++ evs))
        (st, []) ops.

(** ** Persistence *)

(** The value space of JSON.  A number that is an identifier is kept as
    the integer it denotes. *)
#[warnings="-register-all"]
Inductive json : Type :=
  | JNull
  | JBool (b : bool)
  | JInteger (z : Z)
  | JNumber (x : float)
  | JString (s : string)
  | JArray (elements : list json)
  | JObject (properties : list (string * json)).

(** [JSON.stringify] writes [null] for [NaN] and the infinities, [0] for
    both zeros, and any other number so that it reads back as itself. *)
Definition jsonOfNumber (x : float) : json :=
  if PrimFloat.is_finite x
  then JNumber (if PrimFloat.is_zero x then 0 else x)
  else JNull.

(** A property whose value is [undefined] is left out by [JSON.stringify]. *)
Definition optionalProperty {A} (key : string) (enc : A → json) (v : option A)
  : list (string * json) :=
  match v with
  | Some a => [(key, enc a)]
  | None => []
  end.

Definition jsonOfSupplier (s : Supplier.t) : json :=
  JObject [("name", JString (Supplier.name s));
           ("price", jsonOfNumber (Supplier.price s))].

Definition jsonOfCartItem (item : CartItem.t) : json :=
  JObject
    ([("id", JInteger (CartItem.id item));
      ("name", JString (CartItem.name item));
      ("quantity", jsonOfNumber (CartItem.quantity item))]
     ++ optionalProperty "availableSuppliers"
          (λ l, JArray (jsonOfSupplier <$> l)) (CartItem.availableSuppliers item)
     ++ optionalProperty "selectedSupplierName" JString
          (CartItem.selectedSupplierName item)).

Definition jsonOfOrderItem (line : OrderItem.t) : json :=
  JObject [("productId", JInteger (OrderItem.productId line));
           ("productName", JString (OrderItem.productName line));
           ("quantity", jsonOfNumber (OrderItem.quantity line));
           ("supplierName", JString (OrderItem.supplierName line));
           ("supplierPrice", jsonOfNumber (OrderItem.supplierPrice line));
           ("itemTotal", jsonOfNumber (OrderItem.itemTotal line))].

Definition jsonOfOrder (o : Order.t) : json :=
  JObject [("id", JString (Order.id o));
           ("date", JString (Order.date o));
           ("items", JArray (jsonOfOrderItem <$> Order.items o));
           ("totalAmount", jsonOfNumber (Order.totalAmount o))].

(** Reading the parsed value back at the types the store declares.  The
    source casts without a check; a tree of another shape, such as one with
    [null] where a number is declared, has no reading at these types. *)
Definition property (key : string) (v : json) : option json :=
  match v with
  | JObject properties =>
      (λ found : nat * (string * json), found.2.2)
        <$> list_find (λ kv, kv.1 = key) properties
  | _ => None
  end.

Definition asString (v : json) : option string :=
  match v with JString s => Some s | _ => None end.

Definition asNumber (v : json) : option float :=
  match v with JNumber x => Some x | _ => None end.

Definition asInteger (v : json) : option Z :=
  match v with JInteger z => Some z | _ => None end.

Definition asArray {A} (dec : json → option A) (v : json) : option (list A) :=
  match v with JArray elements => mapM dec elements | _ => None end.

(** An absent property reads as [undefined]. *)
Definition optional {A} (dec : json → option A) (v : option json)
  : option (option A) :=
  match v with
  | Some v => Some <$> dec v
  | None => Some None
  end.

Definition supplierOfJson (v : json) : option Supplier.t :=
  name ← property "name" v ≫= asString;
  price ← property "price" v ≫= asNumber;
  Some (Supplier.mk name price).

Definition cartItemOfJson (v : json) : option CartItem.t :=
  id ← property "id" v ≫= asInteger;
  name ← property "name" v ≫= asString;
  quantity ← property "quantity" v ≫= asNumber;
  suppliers ← optional (asArray supplierOfJson) (property "availableSuppliers" v);
  selected ← optional asString (property "selectedSupplierName" v);
  Some (CartItem.mk id name quantity suppliers selected).

Definition orderItemOfJson (v : json) : option OrderItem.t :=
  productId ← property "productId" v ≫= asInteger;
  productName ← property "productName" v ≫= asString;
  quantity ← property "quantity" v ≫= asNumber;
  supplierName ← property "supplierName" v ≫= asString;
  supplierPrice ← property "supplierPrice" v ≫= asNumber;
  itemTotal ← property "itemTotal" v ≫= asNumber;
  Some (OrderItem.mk productId productName quantity supplierName supplierPrice itemTotal).

Definition orderOfJson (v : json) : option Order.t :=
  id ← property "id" v ≫= asString;
  date ← property "date" v ≫= asString;
  lines ← property "items" v ≫= asArray orderItemOfJson;
  totalAmount ← property "totalAmount" v ≫= asNumber;
  Some (Order.mk id date lines totalAmount).

(** The two [useEffect] bodies: each list is written whole under its key. *)
Definition persist (st : Store) (storage : gmap string json) : gmap string json :=
  <["orders" := JArray (jsonOfOrder <$> orders st)]>
    (<["cartItems" := JArray (jsonOfCartItem <$> items st)]> storage).

(** The two [useState] initialisers: [getItem] of a key that is not there is
    [null], which gives the empty list. *)
Definition initStore (storage : gmap string json) : option Store :=
  loadedItems ← match storage !! "cartItems" with
                | Some savedCart => asArray cartItemOfJson savedCart
                | None => Some []
                end;
  loadedOrders ← match storage !! "orders" with
                 | Some savedOrders => asArray orderOfJson savedOrders
                 | None => Some []
                 end;
  Some (mkStore (loadItem <$> loadedItems) loadedOrders).

(** ** The login form

    [formData] is an object written through a computed key, hence a map
    from property names to strings.  A change event carries the name and the
    value of the input it comes from.  [$api.post] is the host's: the promise
    it returns either resolves to a response or rejects, and [await] rethrows
    the rejection, so that nothing after it runs. *)

Definition initialFormData : gmap string string :=
  <["password" := ""]> (<["email" := ""]> ∅).

(** [setFormData ({ ...formData, [e.target.name]: e.target.value })] *)
Definition handleChange (name value : string) (formData : gmap string string)
  : gmap string string :=
  <[name := value]> formData.

Inductive FormEvent (R : Type) : Type :=
  | PreventDefault
  | Post (url : string) (body : gmap string string)
  | ConsoleLog (result : R).
Arguments PreventDefault {R}.
Arguments Post {R} url body.
Arguments ConsoleLog {R} result.

Definition handleSubmit {R} (response : option R) (formData : gmap string string)
  : list (FormEvent R) :=
  PreventDefault :: Post "/login" formData ::
  match response with
  | Some result => [ConsoleLog result]
  | None => []
  end.

(** ** The example of the specification, and other carts *)

Definition widget : CartItem.t :=
  CartItem.mk 1 "Widget" 2
    (Some [Supplier.mk "A" 10; Supplier.mk "B" 8]) (Some "B").

Definition env0 : Env := mkEnv 1700000000000 42 "01.01.2024, 12:00:00".

Definition unselected : CartItem.t :=
  CartItem.mk 2 "Gasket" 1 (Some [Supplier.mk "A" 3]) None.

Definition mismatched : CartItem.t :=
  CartItem.mk 3 "Flange" 5 (Some [Supplier.mk "A" 7]) (Some "Z").

(** A line priced at a tenth, three units of it. *)
Definition washers : CartItem.t :=
  CartItem.mk 4 "Washer" 3 (Some [Supplier.mk "A" 0.1]) (Some "A").

(** A line whose product of doubles is exactly an eighth. *)
Definition shims : CartItem.t :=
  CartItem.mk 5 "Shim" 3 (Some [Supplier.mk "A" 0.041666666666666664]) (Some "A").

(** The order of two widgets at the price of supplier B. *)
Definition widgetOrder : Order.t :=
  Order.mk "ORDER-1700000000000-42" "01.01.2024, 12:00:00"
    [OrderItem.mk 1 "Widget" 2 "B" 8 16] 16.

(** ** Notions the properties are stated with *)

(** A number other than [NaN]. *)
Definition isNumber (x : float) : Prop := PrimFloat.is_nan x = false.

(** [m] is the offer of lowest price of [suppliers], and the first one of
    that price in the order of the list. *)
Definition firstCheapest (suppliers : list Supplier.t) (m : Supplier.t) : Prop :=
  ∃ i : nat,
    suppliers !! i = Some m
    ∧ (∀ s, s ∈ suppliers →
         PrimFloat.leb (Supplier.price m) (Supplier.price s) = true)
    ∧ (∀ (j : nat) s, (j < i)%nat → suppliers !! j = Some s →
         PrimFloat.ltb (Supplier.price m) (Supplier.price s) = true).

(** A selection is made when the field is truthy, the test of [placeOrder]. *)
Definition hasSelection (item : CartItem.t) : Prop :=
  truthy (CartItem.selectedSupplierName item) = true.

(** The selected name resolves to an offer of the entry. *)
Definition resolves (item : CartItem.t) : Prop :=
  is_Some (selectedSupplier item).

(** The order line of an entry, when its selection resolves. *)
Definition lineOf (item : CartItem.t) : option OrderItem.t :=
  orderItemOf item <$> selectedSupplier item.

(** The selected name of [item] is the name of [s], and [s] is the first
    offer of [item] of that name. *)
Definition resolvesTo (item : CartItem.t) (s : Supplier.t) : Prop :=
  ∃ offers (i : nat),
    CartItem.availableSuppliers item = Some offers
    ∧ offers !! i = Some s
    ∧ CartItem.selectedSupplierName item = Some (Supplier.name s)
    ∧ ∀ (j : nat) s', (j < i)%nat → offers !! j = Some s' →
                      Supplier.name s' ≠ Supplier.name s.

(** [line] is the order line of [item]: the entry's id, name and quantity,
    the name and the price of the offer it resolves to, and the product of
    that price and the quantity. *)
Definition lineFor (item : CartItem.t) (line : OrderItem.t) : Prop :=
  ∃ s,
    resolvesTo item s
    ∧ OrderItem.productId line = CartItem.id item
    ∧ OrderItem.productName line = CartItem.name item
    ∧ OrderItem.quantity line = CartItem.quantity item
    ∧ OrderItem.supplierName line = Supplier.name s
    ∧ OrderItem.supplierPrice line = Supplier.price s
    ∧ OrderItem.itemTotal line
      = PrimFloat.mul (Supplier.price s) (CartItem.quantity item).

(** Resolved price times quantity of an entry. *)
Definition resolvedTotal (item : CartItem.t) : option float :=
  (λ s, PrimFloat.mul (Supplier.price s) (CartItem.quantity item))
    <$> selectedSupplier item.

(** The sum of a list of numbers, added one after the other to zero. *)
Definition sumNumbers (l : list float) : float := foldl PrimFloat.add 0%float l.

(** Resolved price times quantity, summed over the entries that resolve. *)
Definition cartTotal (l : list CartItem.t) : float :=
  sumNumbers (omap resolvedTotal l).

(** [n] is the integer nearest to a hundred times [v], the larger one of
    two. *)
Definition nearestCents (v : Q) (n : Z) : Prop :=
  (inject_Z n - (1 # 2) <= 100 * v)%Q ∧ (100 * v < inject_Z n + (1 # 2))%Q.

(** [y] is [x] rounded to two decimals: the double nearest to [n / 100],
    with the sign of [x], for [n] the integer nearest to a hundred times the
    exact absolute value of [x]; zero for a zero; [x] itself when [x] is not
    finite or is so large that doubles around it are more than a hundredth
    apart. *)
Definition roundedToCents (x y : float) : Prop :=
  match Prim2SF x with
  | S754_finite negative m e =>
      ((2 ^ 46 # 1 <= exactValue m e)%Q → y = x)
      ∧ (¬ (2 ^ 46 # 1 <= exactValue m e)%Q →
         ∃ n, nearestCents (exactValue m e) n
              ∧ y = signed negative (centsToNumber n))
  | S754_zero _ => y = 0%float
  | S754_infinity _ => y = x
  | S754_nan => y = x
  end.

Definition positiveCart (l : list CartItem.t) : Prop :=
  Forall (λ item, PrimFloat.ltb 0 (CartItem.quantity item) = true) l.

Definition succeeded (r : Store * list Event) : Prop := CheckoutSuccess ∈ r.2.

(** A number that [JSON.stringify] writes and [JSON.parse] reads back as
    itself: a finite one that is not the negative zero. *)
Definition jsonStable (x : float) : Prop :=
  PrimFloat.is_finite x = true ∧ Prim2SF x ≠ S754_zero true.

Definition stableItem (item : CartItem.t) : Prop :=
  jsonStable (CartItem.quantity item)
  ∧ ∀ offers, CartItem.availableSuppliers item = Some offers →
              Forall (λ s, jsonStable (Supplier.price s)) offers.

Definition stableLine (line : OrderItem.t) : Prop :=
  jsonStable (OrderItem.quantity line)
  ∧ jsonStable (OrderItem.supplierPrice line)
  ∧ jsonStable (OrderItem.itemTotal line).

Definition stableOrder (o : Order.t) : Prop :=
  jsonStable (Order.totalAmount o) ∧ Forall stableLine (Order.items o).

Definition stableStore (st : Store) : Prop :=
  Forall stableItem (items st) ∧ Forall stableOrder (orders st).

(** [loaded] is [item] as it is after a reload: the same id, name, quantity
    and offers; as selection the name of the lowest-price offer, the first
    one on a tie, when the list of offers is not empty, and the selection of
    [item] otherwise. *)
Definition reloadedAs (item loaded : CartItem.t) : Prop :=
  CartItem.id loaded = CartItem.id item
  ∧ CartItem.name loaded = CartItem.name item
  ∧ CartItem.quantity loaded = CartItem.quantity item
  ∧ CartItem.availableSuppliers loaded = CartItem.availableSuppliers item
  ∧ match CartItem.availableSuppliers item with
    | Some (first :: rest) =>
        ∃ m, firstCheapest (first :: rest) m
             ∧ CartItem.selectedSupplierName loaded = Some (Supplier.name m)
    | _ => CartItem.selectedSupplierName loaded = CartItem.selectedSupplierName item
    end.

(** How many times the success callback was called. *)
Definition successCount (evs : list Event) : nat :=
  length (filter (λ ev, ev = CheckoutSuccess) evs).

(** The environments of the checkouts of a run, in order. *)
Definition placeOrderEnvs (ops : list Op) : list Env :=
  omap (λ op, match op with PlaceOrder env => Some env | _ => None end) ops.

(** No character of the string is a dash. *)
Fixpoint dashFree (s : string) : bool :=
  match s with
  | EmptyString => true
  | String c s' => bool_decide (c ≠ "-"%char) && dashFree s'
  end.

(** Positive, as a specified float: finite with the sign bit clear, or the
    positive infinity. *)
Definition positive_sf (x : spec_float) : Prop :=
  (∃ m e, x = S754_finite false m e) ∨ x = S754_infinity false.

(** The form after a series of change events, oldest first. *)
Definition typeAll (changes : list (string * string)) : gmap string string :=
  foldl (λ formData change, handleChange change.1 change.2 formData)
        initialFormData changes.

(** The value of the last change event of the input [name], the empty
    string when there is none. *)
Definition lastTyped (name : string) (changes : list (string * string)) : string :=
  foldl (λ acc change, if decide (change.1 = name) then change.2 else acc)
        "" changes.

(** ** Tactics *)

(** Case analysis on the comparisons of a comparison of specified floats. *)
Ltac sf_cases :=
  repeat match goal with
  | |- context [Pos.compare_cont Eq ?a ?b] =>
      change (Pos.compare_cont Eq a b) with (Pos.compare a b)
  | H : context [Pos.compare_cont Eq ?a ?b] |- _ =>
      change (Pos.compare_cont Eq a b) with (Pos.compare a b) in H
  end;
  repeat match goal with
  | H : context [Z.compare ?a ?b] |- _ => destruct (Z.compare_spec a b)
  | |- context [Z.compare ?a ?b] => destruct (Z.compare_spec a b)
  | H : context [Pos.compare ?a ?b] |- _ => destruct (Pos.compare_spec a b)
  | |- context [Pos.compare ?a ?b] => destruct (Pos.compare_spec a b)
  end;
  simpl in *; try reflexivity; try discriminate; try congruence; try lia.

(** A number given in full is finite and is not the negative zero. *)
Ltac stable_number := split; [reflexivity | vm_compute; discriminate].

(** * Properties *)

(** ** Facts of binary64 arithmetic, from the specification of the
    primitive operations *)

Lemma SFleb_refl (x : spec_float) : x ≠ S754_nan → SFleb x x = true.
Proof.
  unfold SFleb, SFcompare. destruct x as [[|]|[|]| |[|] m e]; intros H;
    try reflexivity; try congruence; sf_cases.
Qed.

Lemma SFltb_SFleb_trans (x m s : spec_float) :
  SFltb x m = true → SFleb m s = true → SFltb x s = true.
Proof.
  unfold SFltb, SFleb, SFcompare.
  destruct x as [[|]|[|]| |[|] mx ex], m as [[|]|[|]| |[|] mm em],
    s as [[|]|[|]| |[|] ms es]; intros H1 H2;
    try reflexivity; try discriminate; sf_cases.
Qed.

Lemma SFltb_false_SFleb (x m : spec_float) :
  x ≠ S754_nan → m ≠ S754_nan → SFltb x m = false → SFleb m x = true.
Proof.
  unfold SFltb, SFleb, SFcompare.
  destruct x as [[|]|[|]| |[|] mx ex], m as [[|]|[|]| |[|] mm em]; intros Hx Hm H;
    try reflexivity; try discriminate; try congruence; sf_cases.
Qed.

Lemma SFleb_not_SFltb (q z : spec_float) : SFleb q z = true → SFltb z q = false.
Proof.
  unfold SFltb, SFleb, SFcompare.
  destruct q as [[|]|[|]| |[|] mq eq], z as [[|]|[|]| |[|] mz ez]; intros H;
    try reflexivity; try discriminate; sf_cases.
Qed.

Lemma SFltb_SFleb (x s : spec_float) : SFltb x s = true → SFleb x s = true.
Proof.
  unfold SFltb, SFleb. destruct (SFcompare x s) as [[| |]|]; intros H;
    try reflexivity; discriminate.
Qed.

Lemma isNumber_spec (x : float) : isNumber x ↔ Prim2SF x ≠ S754_nan.
Proof.
  unfold isNumber, is_nan. rewrite FloatAxioms.eqb_spec. unfold SFeqb, SFcompare.
  destruct (Prim2SF x) as [[|]|[|]| |[|] m e]; simpl; split; intros H;
    try reflexivity; try discriminate; try congruence; sf_cases.
Qed.

(** The order of doubles other than [NaN]. *)
Lemma leb_refl (x : float) : isNumber x → PrimFloat.leb x x = true.
Proof. rewrite isNumber_spec, FloatAxioms.leb_spec. apply SFleb_refl. Qed.

Lemma ltb_leb_trans (x m s : float) :
  PrimFloat.ltb x m = true → PrimFloat.leb m s = true → PrimFloat.ltb x s = true.
Proof. rewrite !FloatAxioms.ltb_spec, FloatAxioms.leb_spec. apply SFltb_SFleb_trans. Qed.

Lemma ltb_leb (x s : float) : PrimFloat.ltb x s = true → PrimFloat.leb x s = true.
Proof. rewrite FloatAxioms.ltb_spec, FloatAxioms.leb_spec. apply SFltb_SFleb. Qed.

Lemma not_ltb_leb (x m : float) :
  isNumber x → isNumber m → PrimFloat.ltb x m = false → PrimFloat.leb m x = true.
Proof. rewrite !isNumber_spec, FloatAxioms.ltb_spec, FloatAxioms.leb_spec. apply SFltb_false_SFleb. Qed.

Lemma leb_not_ltb (q z : float) :
  PrimFloat.leb q z = true → PrimFloat.ltb z q = false.
Proof. rewrite FloatAxioms.ltb_spec, FloatAxioms.leb_spec. apply SFleb_not_SFltb. Qed.

(** The sum of two positive doubles is positive: the rounding of their
    exact sum keeps a mantissa of at least one bit. *)
Lemma shr_1_digits (mrs : shr_record) :
  0 ≤ shr_m mrs →
  0 ≤ shr_m (shr_1 mrs)
  ∧ Zdigits2 (shr_m (shr_1 mrs)) = Z.max 0 (Zdigits2 (shr_m mrs) - 1).
Proof.
  destruct mrs as [m r s]. destruct m as [|[p|p|]|p];
    cbn [shr_1 shr_m Zdigits2 digits2_pos]; intros H; lia.
Qed.

Lemma iter_shr_1_digits (p : positive) (mrs : shr_record) :
  0 ≤ shr_m mrs →
  0 ≤ shr_m (SpecFloat.iter_pos shr_1 p mrs)
  ∧ Zdigits2 (shr_m (SpecFloat.iter_pos shr_1 p mrs))
    = Z.max 0 (Zdigits2 (shr_m mrs) - Zpos p).
Proof.
  revert mrs. induction p as [p IH|p IH|]; intros mrs H; simpl.
  - destruct (shr_1_digits mrs H) as [H1 E1].
    destruct (IH _ H1) as [H2 E2]. destruct (IH _ H2) as [H3 E3].
    split; [exact H3|]. rewrite E3, E2, E1. lia.
  - destruct (IH _ H) as [H2 E2]. destruct (IH _ H2) as [H3 E3].
    split; [exact H3|]. rewrite E3, E2. lia.
  - apply shr_1_digits. exact H.
Qed.

Lemma Zdigits2_pos_inv (m : Z) : 0 ≤ m → 0 < Zdigits2 m → ∃ p, m = Zpos p.
Proof. destruct m as [|p|p]; simpl; intros H1 H2; [lia | eauto | lia]. Qed.

Lemma shr_fexp_pos (m : positive) (e : Z) (l : location) :
  emin ≤ e →
  ∃ mrs' e' m',
    shr_fexp prec emax (Zpos m) e l = (mrs', e')
    ∧ shr_m mrs' = Zpos m' ∧ emin ≤ e'.
Proof.
  intros He. unfold shr_fexp, shr.
  assert (Hm : shr_m (shr_record_of_loc (Zpos m) l) = Zpos m)
    by (destruct l as [|[| |]]; reflexivity).
  destruct (fexp prec emax (Zdigits2 (Zpos m) + e) - e) as [|p|p] eqn:Hn.
  - exists (shr_record_of_loc (Zpos m) l), e, m. auto.
  - assert (Hp : Zpos p < Zdigits2 (Zpos m)).
    { unfold fexp, SpecFloat.emin, prec, emax in *. lia. }
    destruct (iter_shr_1_digits p (shr_record_of_loc (Zpos m) l)) as [H1 E1].
    { rewrite Hm. lia. }
    rewrite Hm in E1.
    destruct (Zdigits2_pos_inv _ H1) as [m' Hm']; [lia|].
    exists (SpecFloat.iter_pos shr_1 p (shr_record_of_loc (Zpos m) l)), (e + Zpos p), m'.
    split; [reflexivity|]. split; [exact Hm' | lia].
  - exists (shr_record_of_loc (Zpos m) l), e, m. auto.
Qed.

Lemma binary_round_aux_pos (m : positive) (e : Z) (l : location) :
  emin ≤ e → positive_sf (binary_round_aux prec emax false (Zpos m) e l).
Proof.
  intros He. unfold binary_round_aux.
  destruct (shr_fexp_pos m e l He) as (mrs1 & e1 & m1 & -> & Hm1 & He1).
  rewrite Hm1.
  assert (Hr : ∃ m2, round_nearest_even (Zpos m1) (loc_of_shr_record mrs1) = Zpos m2).
  { unfold round_nearest_even.
    destruct (loc_of_shr_record mrs1) as [|[| |]].
    - exists m1. reflexivity.
    - destruct (Z.even (Zpos m1)); [exists m1 | exists (m1 + 1)%positive];
        reflexivity.
    - exists m1. reflexivity.
    - exists (m1 + 1)%positive. reflexivity. }
  destruct Hr as [m2 ->].
  destruct (shr_fexp_pos m2 e1 loc_Exact He1) as (mrs3 & e3 & m3 & -> & Hm3 & He3).
  rewrite Hm3. unfold positive_sf.
  destruct (e3 <=? emax - prec); [left; exists m3, e3 | right]; reflexivity.
Qed.

Lemma binary_round_pos (m : positive) (e : Z) :
  emin ≤ e → positive_sf (binary_round prec emax false m e).
Proof.
  intros He. unfold binary_round, shl_align.
  destruct (fexp prec emax (Zpos (digits2_pos m) + e) - e) as [|p|p] eqn:Hn;
    apply binary_round_aux_pos; try exact He.
  unfold fexp, SpecFloat.emin, prec, emax in *. lia.
Qed.

Lemma valid_emin s m e : valid_binary (S754_finite s m e) = true → emin ≤ e.
Proof.
  unfold SpecFloat.valid_binary, bounded, canonical_mantissa.
  intros H. apply andb_prop in H. destruct H as [H _].
  apply Z.eqb_eq in H. unfold fexp, SpecFloat.emin, prec, emax in *. lia.
Qed.

Lemma SFadd_pos (x y : spec_float) :
  valid_binary x = true → valid_binary y = true →
  positive_sf x → positive_sf y → positive_sf (SF64add x y).
Proof.
  intros Vx Vy [(mx & ex & ->)| ->] [(my & ey & ->)| ->]; simpl;
    try (right; reflexivity).
  apply valid_emin in Vx. apply valid_emin in Vy.
  unfold SF64add, SFadd, binary_normalize. simpl.
  apply binary_round_pos. lia.
Qed.

Lemma positive_sf_ltb (x : float) :
  PrimFloat.ltb 0 x = true ↔ positive_sf (Prim2SF x).
Proof.
  rewrite FloatAxioms.ltb_spec. change (Prim2SF 0) with (S754_zero false).
  unfold positive_sf, SFltb, SFcompare.
  destruct (Prim2SF x) as [[|]|[|]| |[|] m e]; simpl; split; intros H;
    try reflexivity; try discriminate; eauto;
    try (destruct H as [(m' & e' & H)|H]; discriminate).
Qed.

Lemma add_pos (a b : float) :
  PrimFloat.ltb 0 a = true → PrimFloat.ltb 0 b = true →
  PrimFloat.ltb 0 (PrimFloat.add a b) = true.
Proof.
  rewrite !positive_sf_ltb, FloatAxioms.add_spec. apply SFadd_pos; apply Prim2SF_valid.
Qed.

(** ** Rounding to two decimals *)

Lemma cents_nearest (m : positive) (e : Z) : nearestCents (exactValue m e) (cents m e).
Proof.
  unfold nearestCents, exactValue, cents. destruct e as [|p|p].
  - unfold Qle, Qlt. cbn [Qnum Qden Qminus Qplus Qopp Qmult inject_Z].
    rewrite Z.pow_0_r. lia.
  - unfold Qle, Qlt. cbn [Qnum Qden Qminus Qplus Qopp Qmult inject_Z].
    set (k := 2 ^ Zpos p). lia.
  - set (S := Zpos (2 ^ p)). set (M := Zpos m).
    assert (HS : 0 < 2 * S) by (unfold S; lia).
    pose proof (Z.mul_div_le (200 * M + S) (2 * S) HS) as H1.
    pose proof (Z.mul_succ_div_gt (200 * M + S) (2 * S) HS) as H2.
    set (n := (200 * M + S) / (2 * S)) in *.
    unfold Qle, Qlt. cbn [Qnum Qden Qminus Qplus Qopp Qmult inject_Z].
    fold S. fold M. nia.
Qed.

Lemma toFixed2_roundedToCents (x : float) : roundedToCents x (toFixed2 x).
Proof.
  unfold roundedToCents, toFixed2.
  destruct (Prim2SF x) as [s|s| |s m e]; try reflexivity.
  destruct (Qle_bool (2 ^ 46 # 1) (exactValue m e)) eqn:Hbig.
  - split; [reflexivity|]. intros Hn. exfalso. apply Hn.
    apply Qle_bool_iff. exact Hbig.
  - split.
    + intros Hle. apply Qle_bool_iff in Hle. congruence.
    + intros _. exists (cents m e). split; [apply cents_nearest | reflexivity].
Qed.

Example toFixed2_eighth : toFixed2 0.125 = 0.13%float.
Proof. vm_compute. reflexivity. Qed.

Example toFixed2_1005 : toFixed2 1.005 = 1%float.
Proof. vm_compute. reflexivity. Qed.

Example toFixed2_negative : toFixed2 (-2.675) = (-2.67)%float.
Proof. vm_compute. reflexivity. Qed.

Example toFixed2_special :
  toFixed2 nan = nan ∧ toFixed2 infinity = infinity
  ∧ toFixed2 (-0) = 0%float ∧ toFixed2 (-0.001) = (-0)%float
  ∧ toFixed2 1e21 = 1e21%float.
Proof. vm_compute. repeat split; reflexivity. Qed.

Example placeOrder_widget :
  placeOrder env0 (mkStore [widget] []) =
  (mkStore []
     [Order.mk "ORDER-1700000000000-42" "01.01.2024, 12:00:00"
        [OrderItem.mk 1 "Widget" 2 "B" 8 16] 16],
   [CheckoutSuccess]).
Proof. vm_compute. reflexivity. Qed.

(** The line total is the product of doubles, and the total amount the
    rounding of their sum. *)
Example placeOrder_washers :
  placeOrder env0 (mkStore [washers] []) =
  (mkStore []
     [Order.mk "ORDER-1700000000000-42" "01.01.2024, 12:00:00"
        [OrderItem.mk 4 "Washer" 3 "A" 0.1 0.30000000000000004] 0.3],
   [CheckoutSuccess]).
Proof. vm_compute. reflexivity. Qed.

Example placeOrder_shims :
  placeOrder env0 (mkStore [shims] []) =
  (mkStore []
     [Order.mk "ORDER-1700000000000-42" "01.01.2024, 12:00:00"
        [OrderItem.mk 5 "Shim" 3 "A" 0.041666666666666664 0.125] 0.13],
   [CheckoutSuccess]).
Proof. vm_compute. reflexivity. Qed.

(** ** The cheapest offer *)

Lemma cheaper_first first : cheaper first first = first.
Proof. unfold cheaper. destruct (PrimFloat.ltb _ _); reflexivity. Qed.

Lemma foldl_cheaper_firstCheapest (l pre : list Supplier.t) (m : Supplier.t) (i : nat) :
  (∀ s, s ∈ pre ++ l → isNumber (Supplier.price s)) →
  pre !! i = Some m →
  (∀ s, s ∈ pre → PrimFloat.leb (Supplier.price m) (Supplier.price s) = true) →
  (∀ (j : nat) s, (j < i)%nat → pre !! j = Some s →
     PrimFloat.ltb (Supplier.price m) (Supplier.price s) = true) →
  firstCheapest (pre ++ l) (foldl cheaper m l).
Proof.
  revert pre m i. induction l as [|x l IH]; intros pre m i Hnum Hi Hmin Hfirst.
  - rewrite app_nil_r. exists i. auto.
  - simpl. assert (Happ : pre ++ x :: l = (pre ++ [x]) ++ l)
      by (rewrite <- app_assoc; reflexivity).
    rewrite Happ. rewrite Happ in Hnum.
    assert (Hx : isNumber (Supplier.price x)).
    { apply Hnum. apply elem_of_app. left. apply elem_of_app. right.
      apply list_elem_of_here. }
    assert (Hm : isNumber (Supplier.price m)).
    { apply Hnum. apply elem_of_app. left. apply elem_of_app. left.
      eapply list_elem_of_lookup_2. exact Hi. }
    unfold cheaper at 2.
    destruct (PrimFloat.ltb (Supplier.price x) (Supplier.price m)) eqn:Hlt.
    + apply (IH (pre ++ [x]) x (length pre)); [exact Hnum| | |].
      * rewrite lookup_app_r by lia. rewrite Nat.sub_diag. reflexivity.
      * intros s [Hs|Hs%list_elem_of_singleton]%elem_of_app.
        -- apply ltb_leb. eapply ltb_leb_trans; [exact Hlt|]. apply Hmin. exact Hs.
        -- subst s. apply leb_refl. exact Hx.
      * intros j s Hj Hs. rewrite lookup_app_l in Hs by lia.
        apply list_elem_of_lookup_2 in Hs.
        eapply ltb_leb_trans; [exact Hlt|]. apply Hmin. exact Hs.
    + apply (IH (pre ++ [x]) m i); [exact Hnum| | |].
      * apply lookup_app_l_Some. exact Hi.
      * intros s [Hs|Hs%list_elem_of_singleton]%elem_of_app.
        -- auto.
        -- subst s. apply not_ltb_leb; assumption.
      * intros j s Hj Hs. apply (Hfirst j s Hj).
        apply lookup_lt_Some in Hi.
        rewrite lookup_app_l in Hs by lia. exact Hs.
Qed.

Lemma cheapestSupplier_firstCheapest first rest :
  (∀ s, s ∈ first :: rest → isNumber (Supplier.price s)) →
  firstCheapest (first :: rest) (cheapestSupplier first rest).
Proof.
  intros Hnum. unfold cheapestSupplier. simpl. rewrite cheaper_first.
  apply (foldl_cheaper_firstCheapest rest [first] first 0%nat).
  - exact Hnum.
  - reflexivity.
  - intros s ->%list_elem_of_singleton. apply leb_refl. apply Hnum.
    apply list_elem_of_here.
  - intros j s Hj. lia.
Qed.

(** A price that is [NaN] is never found cheaper, nor is anything found
    cheaper than it. *)
Example cheapest_with_nan :
  cheapestSupplier (Supplier.mk "A" nan) [Supplier.mk "B" 5] = Supplier.mk "A" nan.
Proof. reflexivity. Qed.

(** ** The loop of [placeOrder] *)

Lemma omap_cons {A B} (f : A → option B) (x : A) (l : list A) :
  omap f (x :: l) = match f x with Some y => y :: omap f l | None => omap f l end.
Proof. reflexivity. Qed.

Lemma foldl_orderStep (l : list CartItem.t) (acc : list OrderItem.t * float) :
  (foldl orderStep acc l).1 = acc.1 ++ omap lineOf l
  ∧ (foldl orderStep acc l).2 = foldl PrimFloat.add acc.2 (omap resolvedTotal l).
Proof.
  revert acc. induction l as [|item l IH]; intros acc.
  - simpl. rewrite app_nil_r. auto.
  - cbn [foldl]. destruct (IH (orderStep acc item)) as [IH1 IH2].
    rewrite IH1, IH2, !omap_cons. unfold orderStep, lineOf, resolvedTotal.
    destruct (selectedSupplier item) as [s|]; simpl.
    + rewrite <- app_assoc. auto.
    + auto.
Qed.

Lemma omap_lineOf_nil (l : list CartItem.t) :
  omap lineOf l = [] ↔ ∀ item, item ∈ l → selectedSupplier item = None.
Proof.
  induction l as [|item l IH].
  - split; [intros _ item Hin; inversion Hin | reflexivity].
  - rewrite omap_cons. unfold lineOf at 1.
    destruct (selectedSupplier item) as [s|] eqn:Hs; simpl.
    + split; [discriminate|]. intros H.
      specialize (H item (list_elem_of_here _ _)). congruence.
    + rewrite IH. split.
      * intros H it [->|Hin]%elem_of_cons; auto.
      * intros H it Hin. apply H. apply list_elem_of_further. exact Hin.
Qed.

Lemma resolves_lineOf (item : CartItem.t) : resolves item ↔ is_Some (lineOf item).
Proof. unfold resolves, lineOf. rewrite fmap_is_Some. reflexivity. Qed.

Lemma omap_resolved {B} (f : Supplier.t → CartItem.t → B) (l : list CartItem.t) :
  omap (λ item, (λ s, f s item) <$> selectedSupplier item) (filter resolves l)
  = omap (λ item, (λ s, f s item) <$> selectedSupplier item) l.
Proof.
  induction l as [|item l IH]; [reflexivity|].
  rewrite filter_cons. destruct (decide (resolves item)) as [Hr|Hr].
  - rewrite !omap_cons, IH. reflexivity.
  - rewrite IH, omap_cons. unfold resolves in Hr.
    destruct (selectedSupplier item); [|reflexivity].
    exfalso. apply Hr. eauto.
Qed.

Lemma omap_lineOf_resolved (l : list CartItem.t) :
  omap lineOf (filter resolves l) = omap lineOf l.
Proof. apply (omap_resolved (λ s item, orderItemOf item s)). Qed.

Lemma cartTotal_resolved (l : list CartItem.t) :
  cartTotal (filter resolves l) = cartTotal l.
Proof.
  unfold cartTotal. f_equal.
  apply (omap_resolved
           (λ s item, PrimFloat.mul (Supplier.price s) (CartItem.quantity item))).
Qed.

Lemma selectedSupplier_resolvesTo (item : CartItem.t) (s : Supplier.t) :
  selectedSupplier item = Some s ↔ resolvesTo item s.
Proof.
  unfold selectedSupplier, resolvesTo. split.
  - destruct (CartItem.availableSuppliers item) as [offers|]; [|discriminate].
    intros Hs. apply fmap_Some in Hs. destruct Hs as ([i s'] & Hfind & ->).
    apply list_find_Some in Hfind. destruct Hfind as (Hi & Hname & Hfirst).
    exists offers, i. simpl. split; [reflexivity|]. split; [exact Hi|].
    split; [symmetry; exact Hname|].
    intros j s0 Hj Hs0 Heq. apply (Hfirst j s0 Hs0 Hj).
    rewrite Heq. exact Hname.
  - intros (offers & i & -> & Hi & Hname & Hfirst).
    assert (Hfind : list_find
              (λ s0, Some (Supplier.name s0) = CartItem.selectedSupplierName item)
              offers = Some (i, s)).
    { apply list_find_Some. split; [exact Hi|]. split; [symmetry; exact Hname|].
      intros j s0 Hs0 Hj Heq. apply (Hfirst j s0 Hj Hs0).
      rewrite Hname in Heq. injection Heq as Heq. exact Heq. }
    rewrite Hfind. reflexivity.
Qed.

Lemma lineOf_lineFor (item : CartItem.t) (line : OrderItem.t) :
  lineOf item = Some line → lineFor item line.
Proof.
  unfold lineOf, lineFor. destruct (selectedSupplier item) as [s|] eqn:Hs; simpl;
    [|discriminate].
  intros [= <-]. exists s. split; [apply selectedSupplier_resolvesTo; exact Hs|].
  repeat split; reflexivity.
Qed.

Lemma omap_lineOf_lineFor (l : list CartItem.t) :
  Forall resolves l → Forall2 lineFor l (omap lineOf l).
Proof.
  induction 1 as [|item l Hr _ IH]; [constructor|].
  apply resolves_lineOf in Hr. destruct Hr as [line Hline].
  rewrite omap_cons, Hline. constructor; [|exact IH].
  apply lineOf_lineFor. exact Hline.
Qed.

Lemma itemTotal_omap_lineOf (l : list CartItem.t) :
  OrderItem.itemTotal <$> omap lineOf l = omap resolvedTotal l.
Proof.
  induction l as [|item l IH]; [reflexivity|].
  rewrite !omap_cons. unfold lineOf, resolvedTotal.
  destruct (selectedSupplier item) as [s|]; simpl.
  - fold lineOf. fold resolvedTotal. rewrite <- IH. reflexivity.
  - exact IH.
Qed.

(** ** The two outcomes of [placeOrder] *)

Lemma forallb_hasSelection (l : list CartItem.t) :
  forallb (λ item, truthy (CartItem.selectedSupplierName item)) l = true
  ↔ Forall hasSelection l.
Proof.
  induction l as [|item l IH]; simpl.
  - split; [constructor | reflexivity].
  - rewrite andb_true_iff, IH, Forall_cons. reflexivity.
Qed.

(** The order a successful checkout of the cart creates. *)
Lemma placeOrder_success (env : Env) (st : Store) :
  items st ≠ [] →
  Forall hasSelection (items st) →
  omap lineOf (items st) ≠ [] →
  placeOrder env st =
  (mkStore [] (orders st ++
                 [Order.mk (orderId env) (localeString env)
                    (omap lineOf (items st)) (toFixed2 (cartTotal (items st)))]),
   [CheckoutSuccess]).
Proof.
  intros Hne Hsel Hlines. unfold placeOrder.
  destruct (decide (length (items st) = 0%nat)) as [Hlen|_].
  { apply length_zero_iff_nil in Hlen. contradiction. }
  apply forallb_hasSelection in Hsel. rewrite Hsel. simpl.
  destruct (foldl_orderStep (items st) ([], 0%float)) as [H1 H2].
  destruct (foldl orderStep ([], 0%float) (items st)) as [newOrderItems orderTotal].
  simpl in H1, H2. subst newOrderItems orderTotal.
  destruct (decide (length (omap lineOf (items st)) = 0%nat)) as [Hlen|_].
  { apply length_zero_iff_nil in Hlen. contradiction. }
  reflexivity.
Qed.

(** The three ways [placeOrder] gives up, each with its own message. *)
Lemma placeOrder_abort (env : Env) (st : Store) :
  items st = [] ∨ ¬ Forall hasSelection (items st) ∨ omap lineOf (items st) = [] →
  ∃ a, placeOrder env st = (st, [Alert a]).
Proof.
  intros H. unfold placeOrder.
  destruct (decide (length (items st) = 0%nat)) as [Hlen|Hlen]; [eauto|].
  destruct (forallb _ (items st)) eqn:Hsel; simpl; [|eauto].
  destruct H as [H|[H|H]].
  - rewrite H in Hlen. contradiction.
  - apply forallb_hasSelection in Hsel. contradiction.
  - destruct (foldl_orderStep (items st) ([], 0%float)) as [H1 _].
    destruct (foldl orderStep ([], 0%float) (items st)) as [newOrderItems orderTotal].
    simpl in H1. subst newOrderItems. rewrite H. simpl. eauto.
Qed.

Lemma placeOrder_cases (env : Env) (st : Store) :
  (∃ a, placeOrder env st = (st, [Alert a]))
  ∨ (∃ o, placeOrder env st = (mkStore [] (orders st ++ [o]), [CheckoutSuccess])).
Proof.
  destruct (decide (items st = [])) as [He|Hne].
  { left. apply placeOrder_abort. auto. }
  destruct (decide (Forall hasSelection (items st))) as [Hs|Hs].
  2: { left. apply placeOrder_abort. auto. }
  destruct (decide (omap lineOf (items st) = [])) as [Hl|Hl].
  { left. apply placeOrder_abort. auto. }
  right. eexists. apply placeOrder_success; assumption.
Qed.

(** ** Checkout of a cart whose entries all resolve *)

(** C1, as stated, fails on the empty cart: every entry of the empty cart
    has a selected and resolvable supplier, and [placeOrder] appends no
    order and does not call the success callback. *)
Lemma placeOrder_empty_cart_creates_no_order :
  (∀ item, item ∈ items (mkStore [] []) → hasSelection item ∧ resolves item)
  ∧ placeOrder env0 (mkStore [] []) = (mkStore [] [], [Alert CartIsEmpty]).
Proof.
  split; [|reflexivity].
  intros item Hin. inversion Hin.
Qed.

(** C1 (amended): on a non-empty cart in which every entry has a selected
    supplier whose name resolves to one of its offers, [placeOrder] appends
    exactly one order to the history, with one line for each entry, whose
    [totalAmount] is the sum over the entries of resolved price times
    quantity, rounded to two decimals; it empties the cart and calls the
    success callback exactly once.  The products, the sum and the rounding
    are those of doubles. *)
Theorem placeOrder_all_resolved (env : Env) (st : Store) :
  items st ≠ [] →
  (∀ item, item ∈ items st → hasSelection item ∧ resolves item) →
  ∃ o,
    placeOrder env st = (mkStore [] (orders st ++ [o]), [CheckoutSuccess])
    ∧ Order.totalAmount o = toFixed2 (cartTotal (items st))
    ∧ roundedToCents (cartTotal (items st)) (Order.totalAmount o)
    ∧ Forall2 lineFor (items st) (Order.items o)
    ∧ roundedToCents (sumNumbers (OrderItem.itemTotal <$> Order.items o))
        (Order.totalAmount o).
Proof.
  intros Hne Hall.
  assert (Hsel : Forall hasSelection (items st)).
  { apply Forall_forall. intros item Hin. apply Hall. exact Hin. }
  assert (Hres : Forall resolves (items st)).
  { apply Forall_forall. intros item Hin. apply Hall. exact Hin. }
  pose proof (omap_lineOf_lineFor _ Hres) as Hlines.
  eexists. split; [apply placeOrder_success; try assumption|].
  - intros Hnil. rewrite Hnil in Hlines. inversion Hlines as [Hnil'|].
    symmetry in Hnil'. contradiction.
  - simpl. split; [reflexivity|].
    split; [apply toFixed2_roundedToCents|]. split; [exact Hlines|].
    rewrite itemTotal_omap_lineOf. apply toFixed2_roundedToCents.
Qed.

Lemma placeOrder_all_resolved_witness :
  items (mkStore [washers; shims] []) ≠ []
  ∧ (∀ item, item ∈ items (mkStore [washers; shims] []) →
             hasSelection item ∧ resolves item)
  ∧ ∃ o,
      placeOrder env0 (mkStore [washers; shims] [])
      = (mkStore [] (orders (mkStore [washers; shims] []) ++ [o]), [CheckoutSuccess])
      ∧ Order.totalAmount o = toFixed2 (cartTotal (items (mkStore [washers; shims] [])))
      ∧ roundedToCents (cartTotal (items (mkStore [washers; shims] [])))
          (Order.totalAmount o)
      ∧ Forall2 lineFor (items (mkStore [washers; shims] [])) (Order.items o)
      ∧ roundedToCents (sumNumbers (OrderItem.itemTotal <$> Order.items o))
          (Order.totalAmount o).
Proof.
  assert (Hne : items (mkStore [washers; shims] []) ≠ []) by discriminate.
  assert (Hall : ∀ item, item ∈ items (mkStore [washers; shims] []) →
                         hasSelection item ∧ resolves item).
  { intros item Hin. apply elem_of_cons in Hin. destruct Hin as [->|Hin].
    - split; [reflexivity | eexists; reflexivity].
    - apply list_elem_of_singleton in Hin. subst item.
      split; [reflexivity | eexists; reflexivity]. }
  split; [exact Hne|]. split; [exact Hall|].
  exact (placeOrder_all_resolved env0 (mkStore [washers; shims] []) Hne Hall).
Defined.

(** Three tenths and an eighth: the sum of the two products of doubles is
    0.42500000000000004, and the total amount 0.43. *)
Example placeOrder_washers_and_shims :
  cartTotal [washers; shims] = 0.42500000000000004%float
  ∧ (placeOrder env0 (mkStore [washers; shims] [])).1
    = mkStore []
        [Order.mk "ORDER-1700000000000-42" "01.01.2024, 12:00:00"
           [OrderItem.mk 4 "Washer" 3 "A" 0.1 0.30000000000000004;
            OrderItem.mk 5 "Shim" 3 "A" 0.041666666666666664 0.125]
           0.43].
Proof. vm_compute. split; reflexivity. Qed.

(** ** The three validation failures *)

(** C2: on an empty cart, on a cart with an entry without a selected
    supplier, and on a cart none of whose entries resolves, [placeOrder]
    leaves the cart list and the order history as they were and does not
    call the success callback; its only effect is one alert. *)
Theorem placeOrder_validation_failure (env : Env) (st : Store) :
  items st = []
  ∨ (∃ item, item ∈ items st ∧ ¬ hasSelection item)
  ∨ (∀ item, item ∈ items st → ¬ resolves item) →
  (placeOrder env st).1 = st
  ∧ ¬ succeeded (placeOrder env st)
  ∧ ∃ a, (placeOrder env st).2 = [Alert a].
Proof.
  intros H.
  assert (Habort : ∃ a, placeOrder env st = (st, [Alert a])).
  { apply placeOrder_abort. destruct H as [H|[(item & Hin & Hsel)|H]].
    - left. exact H.
    - right. left. intros Hall. apply Hsel.
      rewrite Forall_forall in Hall. apply Hall. exact Hin.
    - right. right. apply omap_lineOf_nil. intros item Hin.
      specialize (H item Hin). unfold resolves in H.
      destruct (selectedSupplier item); [|reflexivity].
      exfalso. apply H. eauto. }
  destruct Habort as [a Ha]. rewrite Ha. simpl.
  split; [reflexivity|]. split; [|eauto].
  unfold succeeded. simpl. intros Hin.
  apply list_elem_of_singleton in Hin. discriminate.
Qed.

Lemma placeOrder_validation_failure_witness :
  (items (mkStore [widget; unselected] []) = []
   ∨ (∃ item, item ∈ items (mkStore [widget; unselected] []) ∧ ¬ hasSelection item)
   ∨ (∀ item, item ∈ items (mkStore [widget; unselected] []) → ¬ resolves item))
  ∧ (placeOrder env0 (mkStore [widget; unselected] [])).1
    = mkStore [widget; unselected] []
  ∧ ¬ succeeded (placeOrder env0 (mkStore [widget; unselected] []))
  ∧ ∃ a, (placeOrder env0 (mkStore [widget; unselected] [])).2 = [Alert a].
Proof.
  assert (H : items (mkStore [widget; unselected] []) = []
              ∨ (∃ item, item ∈ items (mkStore [widget; unselected] [])
                         ∧ ¬ hasSelection item)
              ∨ (∀ item, item ∈ items (mkStore [widget; unselected] []) →
                         ¬ resolves item)).
  { right. left. exists unselected. split.
    - simpl. apply list_elem_of_further, list_elem_of_here.
    - unfold hasSelection. simpl. discriminate. }
  split; [exact H|].
  exact (placeOrder_validation_failure env0 (mkStore [widget; unselected] []) H).
Defined.

(** ** Entries whose selection does not resolve *)

Lemma omap_lineOf_origin (l : list CartItem.t) (line : OrderItem.t) :
  line ∈ omap lineOf l →
  ∃ item s, item ∈ l ∧ selectedSupplier item = Some s ∧ line = orderItemOf item s.
Proof.
  rewrite list_elem_of_omap. intros (item & Hin & Hline).
  unfold lineOf in Hline. destruct (selectedSupplier item) as [s|] eqn:Hs;
    simpl in Hline; [|discriminate].
  exists item, s. split; [exact Hin|]. split; [exact Hs | congruence].
Qed.

Lemma omap_lineOf_some (l : list CartItem.t) :
  (∃ item, item ∈ l ∧ resolves item) → omap lineOf l ≠ [].
Proof.
  intros (item & Hin & Hr) Hnil.
  rewrite omap_lineOf_nil in Hnil. specialize (Hnil item Hin).
  destruct Hr as [s Hs]. congruence.
Qed.

Lemma Forall_resolves_filter (l : list CartItem.t) : Forall resolves (filter resolves l).
Proof. apply Forall_forall. intros item [Hr _]%list_elem_of_filter. exact Hr. Qed.

(** C7: once the cart is not empty and every entry has a selection, an
    entry whose selected name is not the name of one of its own offers is
    passed over without an alert.  The order has one line for each entry
    that resolves and no other line, its total is the rounded sum over those
    entries, and the outcome is the one the cart without the unresolved
    entries would give: as long as one entry resolves, the checkout goes
    through. *)
Theorem placeOrder_skips_unresolved (env : Env) (st : Store) :
  items st ≠ [] →
  Forall hasSelection (items st) →
  (∃ item, item ∈ items st ∧ resolves item) →
  ∃ o,
    placeOrder env st = (mkStore [] (orders st ++ [o]), [CheckoutSuccess])
    ∧ Forall2 lineFor (filter resolves (items st)) (Order.items o)
    ∧ Order.totalAmount o = toFixed2 (cartTotal (filter resolves (items st)))
    ∧ roundedToCents (cartTotal (filter resolves (items st))) (Order.totalAmount o)
    ∧ roundedToCents (sumNumbers (OrderItem.itemTotal <$> Order.items o))
        (Order.totalAmount o)
    ∧ placeOrder env (mkStore (filter resolves (items st)) (orders st))
      = placeOrder env st.
Proof.
  intros Hne Hsel Hsome.
  pose proof (omap_lineOf_some _ Hsome) as Hlines.
  rewrite (placeOrder_success env st Hne Hsel Hlines).
  eexists. split; [reflexivity|]. simpl.
  split.
  { rewrite <- omap_lineOf_resolved. apply omap_lineOf_lineFor.
    apply Forall_resolves_filter. }
  rewrite cartTotal_resolved.
  split; [reflexivity|]. split; [apply toFixed2_roundedToCents|].
  split; [rewrite itemTotal_omap_lineOf; apply toFixed2_roundedToCents|].
  rewrite placeOrder_success; simpl.
  - rewrite omap_lineOf_resolved, cartTotal_resolved. reflexivity.
  - destruct Hsome as (item & Hin & Hr). intros Hnil.
    assert (Hin' : item ∈ filter resolves (items st))
      by (apply list_elem_of_filter; auto).
    rewrite Hnil in Hin'. inversion Hin'.
  - apply Forall_forall. intros item [_ Hin]%list_elem_of_filter.
    rewrite Forall_forall in Hsel. apply Hsel. exact Hin.
  - rewrite omap_lineOf_resolved. exact Hlines.
Qed.

Lemma placeOrder_skips_unresolved_witness :
  items (mkStore [mismatched; washers] []) ≠ []
  ∧ Forall hasSelection (items (mkStore [mismatched; washers] []))
  ∧ (∃ item, item ∈ items (mkStore [mismatched; washers] []) ∧ resolves item)
  ∧ ¬ resolves mismatched
  ∧ ∃ o,
      placeOrder env0 (mkStore [mismatched; washers] [])
      = (mkStore [] (orders (mkStore [mismatched; washers] []) ++ [o]),
         [CheckoutSuccess])
      ∧ Forall2 lineFor (filter resolves (items (mkStore [mismatched; washers] [])))
          (Order.items o)
      ∧ Order.totalAmount o
        = toFixed2 (cartTotal (filter resolves (items (mkStore [mismatched; washers] []))))
      ∧ roundedToCents
          (cartTotal (filter resolves (items (mkStore [mismatched; washers] []))))
          (Order.totalAmount o)
      ∧ roundedToCents (sumNumbers (OrderItem.itemTotal <$> Order.items o))
          (Order.totalAmount o)
      ∧ placeOrder env0 (mkStore (filter resolves (items (mkStore [mismatched; washers] [])))
                              (orders (mkStore [mismatched; washers] [])))
        = placeOrder env0 (mkStore [mismatched; washers] []).
Proof.
  assert (Hne : items (mkStore [mismatched; washers] []) ≠ []) by discriminate.
  assert (Hsel : Forall hasSelection (items (mkStore [mismatched; washers] []))).
  { repeat constructor. }
  assert (Hsome : ∃ item, item ∈ items (mkStore [mismatched; washers] [])
                          ∧ resolves item).
  { exists washers. split.
    - simpl. apply list_elem_of_further, list_elem_of_here.
    - eexists. reflexivity. }
  split; [exact Hne|]. split; [exact Hsel|]. split; [exact Hsome|].
  split; [intros [s Hs]; discriminate Hs|].
  exact (placeOrder_skips_unresolved env0 (mkStore [mismatched; washers] [])
           Hne Hsel Hsome).
Defined.

Example placeOrder_skips_flange :
  placeOrder env0 (mkStore [mismatched; washers] []) =
  (mkStore []
     [Order.mk "ORDER-1700000000000-42" "01.01.2024, 12:00:00"
        [OrderItem.mk 4 "Washer" 3 "A" 0.1 0.30000000000000004] 0.3],
   [CheckoutSuccess]).
Proof. vm_compute. reflexivity. Qed.

(** ** Adding to the cart *)

Lemma itemToAdd_fields (product : CartItem.t) :
  CartItem.id (itemToAdd product) = CartItem.id product
  ∧ CartItem.name (itemToAdd product) = CartItem.name product
  ∧ CartItem.quantity (itemToAdd product) = CartItem.quantity product
  ∧ CartItem.availableSuppliers (itemToAdd product)
    = CartItem.availableSuppliers product.
Proof.
  unfold itemToAdd.
  destruct (CartItem.availableSuppliers product) as [[|first rest]|] eqn:Hs;
    try (repeat split; assumption).
  destruct (negb _); repeat split; assumption.
Qed.



Example addToCart_widget_again :
  addToCart widget [mismatched; widget]
  = [mismatched;
     CartItem.mk 1 "Widget" 4 (Some [Supplier.mk "A" 10; Supplier.mk "B" 8]) (Some "B")].
Proof. reflexivity. Qed.

Example addToCart_widget_other_supplier :
  addToCart (CartItem.with_selectedSupplierName widget (Some "A")) [mismatched; widget]
  = [mismatched; widget; CartItem.with_selectedSupplierName widget (Some "A")].
Proof. reflexivity. Qed.

(** The merged quantity is the sum of doubles: a unit added to two to the
    power 53 is lost. *)
Example addToCart_large_quantity :
  addToCart (CartItem.mk 1 "Widget" 1 None None)
    [CartItem.mk 1 "Widget" 9007199254740992 None None]
  = [CartItem.mk 1 "Widget" 9007199254740992 None None].
Proof. reflexivity. Qed.

(** ** Selection of the cheapest offer *)

Lemma loadItem_fields (item : CartItem.t) :
  CartItem.id (loadItem item) = CartItem.id item
  ∧ CartItem.name (loadItem item) = CartItem.name item
  ∧ CartItem.quantity (loadItem item) = CartItem.quantity item
  ∧ CartItem.availableSuppliers (loadItem item) = CartItem.availableSuppliers item.
Proof.
  unfold loadItem.
  destruct (CartItem.availableSuppliers item) as [[|first rest]|] eqn:Hs;
    try (repeat split; assumption).
  destruct (_ || _); repeat split; assumption.
Qed.

Lemma loadItem_availableSuppliers (item : CartItem.t) :
  CartItem.availableSuppliers (loadItem item) = CartItem.availableSuppliers item.
Proof. apply loadItem_fields. Qed.

Lemma loadItem_selects_cheapest (item : CartItem.t) first rest :
  CartItem.availableSuppliers item = Some (first :: rest) →
  CartItem.selectedSupplierName (loadItem item)
  = Some (Supplier.name (cheapestSupplier first rest)).
Proof.
  intros Hs. unfold loadItem. rewrite Hs.
  destruct (negb (truthy _)) eqn:Ht; simpl; [reflexivity|].
  destruct (bool_decide _) eqn:Hd; simpl; [|reflexivity].
  apply bool_decide_eq_true in Hd. exact Hd.
Qed.

Lemma initStore_items (storage : gmap string json) (st : Store) :
  initStore storage = Some st → ∃ loaded, items st = loadItem <$> loaded.
Proof.
  unfold initStore. intros H.
  destruct (match storage !! "cartItems" with
            | Some savedCart => asArray cartItemOfJson savedCart
            | None => Some []
            end) as [loaded|]; simpl in H; [|discriminate].
  destruct (match storage !! "orders" with
            | Some savedOrders => asArray orderOfJson savedOrders
            | None => Some []
            end) as [loadedOrders|]; simpl in H; [|discriminate].
  injection H as <-. exists loaded. reflexivity.
Qed.

(** C4 does not hold of the code: a product that comes without a selection
    is merged into an entry of its id whose selection was cleared, where the
    comment in [addToCart] says that such a product is added separately even
    if the id matches; the entry stays without a selection although it has
    offers, the cheapest of which is that of supplier B.  The three
    operations are run from the empty store. *)
Theorem addToCart_merge_keeps_selection_cleared :
  ¬ hasSelection (CartItem.with_selectedSupplierName widget None)
  ∧ (run [AddToCart (CartItem.with_selectedSupplierName widget None);
          SelectSupplierForItem 1 None]
       (mkStore [] [])).1
    = mkStore [CartItem.mk 1 "Widget" 2
                 (Some [Supplier.mk "A" 10; Supplier.mk "B" 8]) None] []
  ∧ (run [AddToCart (CartItem.with_selectedSupplierName widget None);
          SelectSupplierForItem 1 None;
          AddToCart (CartItem.with_selectedSupplierName widget None)]
       (mkStore [] [])).1
    = mkStore [CartItem.mk 1 "Widget" 4
                 (Some [Supplier.mk "A" 10; Supplier.mk "B" 8]) None] []
  ∧ firstCheapest [Supplier.mk "A" 10; Supplier.mk "B" 8] (Supplier.mk "B" 8).
Proof.
  split; [unfold hasSelection; simpl; discriminate|].
  split; [reflexivity|]. split; [reflexivity|].
  apply (cheapestSupplier_firstCheapest (Supplier.mk "A" 10) [Supplier.mk "B" 8]).
  intros s Hin. apply elem_of_cons in Hin. destruct Hin as [->|Hin]; [reflexivity|].
  apply list_elem_of_singleton in Hin. subst s. reflexivity.
Qed.

(** X23: every cart item with a non-empty list of offers, none of them
    priced [NaN], has after the store is initialised from storage the name
    of the lowest-price offer of its list as its selection, the first such
    offer in list order on a tie; and a product with such a list and no
    selection that [addToCart] appends as a new entry, no entry of the cart
    having its id and its selected-supplier value, is appended with that
    selection and otherwise unchanged. *)
Theorem cheapest_offer_selected :
  (∀ (storage : gmap string json) st item suppliers,
     initStore storage = Some st →
     item ∈ items st →
     CartItem.availableSuppliers item = Some suppliers →
     suppliers ≠ [] →
     (∀ s, s ∈ suppliers → isNumber (Supplier.price s)) →
     ∃ m, firstCheapest suppliers m
          ∧ CartItem.selectedSupplierName item = Some (Supplier.name m))
  ∧ (∀ product prev suppliers,
       CartItem.availableSuppliers product = Some suppliers →
       suppliers ≠ [] →
       (∀ s, s ∈ suppliers → isNumber (Supplier.price s)) →
       ¬ hasSelection product →
       (∀ item, item ∈ prev → ¬ sameLine product item) →
       ∃ m new,
         firstCheapest suppliers m
         ∧ addToCart product prev = prev ++ [new]
         ∧ CartItem.selectedSupplierName new = Some (Supplier.name m)
         ∧ CartItem.id new = CartItem.id product
         ∧ CartItem.name new = CartItem.name product
         ∧ CartItem.quantity new = CartItem.quantity product
         ∧ CartItem.availableSuppliers new = Some suppliers).
Proof.
  split.
  - intros storage st item suppliers Hinit Hin Hs Hne Hnum.
    destruct (initStore_items storage st Hinit) as [loaded Hitems].
    rewrite Hitems in Hin. apply list_elem_of_fmap in Hin.
    destruct Hin as (item0 & -> & _).
    rewrite loadItem_availableSuppliers in Hs.
    destruct suppliers as [|first rest]; [contradiction|].
    exists (cheapestSupplier first rest).
    split; [apply cheapestSupplier_firstCheapest; exact Hnum|].
    apply loadItem_selects_cheapest. exact Hs.
  - intros product prev suppliers Hs Hne Hnum Hsel Hnone.
    destruct suppliers as [|first rest]; [contradiction|].
    exists (cheapestSupplier first rest),
      (CartItem.with_selectedSupplierName product
         (Some (Supplier.name (cheapestSupplier first rest)))).
    split; [apply cheapestSupplier_firstCheapest; exact Hnum|].
    assert (Hfind : list_find (sameLine product) prev = None).
    { apply list_find_None, Forall_forall. exact Hnone. }
    unfold addToCart. rewrite Hfind. unfold itemToAdd. rewrite Hs.
    unfold hasSelection in Hsel.
    destruct (truthy (CartItem.selectedSupplierName product)); [contradiction|].
    simpl. repeat split; try reflexivity. exact Hs.
Qed.

Lemma cheapest_offer_selected_witness :
  (initStore (persist (mkStore [unselected; mismatched] []) ∅)
   = Some (mkStore [CartItem.with_selectedSupplierName unselected (Some "A");
                    CartItem.with_selectedSupplierName mismatched (Some "A")] [])
   ∧ ∃ m, firstCheapest [Supplier.mk "A" 7] m
          ∧ CartItem.selectedSupplierName
              (CartItem.with_selectedSupplierName mismatched (Some "A"))
            = Some (Supplier.name m))
  ∧ (¬ hasSelection (CartItem.with_selectedSupplierName widget None)
     ∧ (∀ item, item ∈ [widget] →
          ¬ sameLine (CartItem.with_selectedSupplierName widget None) item)
     ∧ ∃ m new,
         firstCheapest [Supplier.mk "A" 10; Supplier.mk "B" 8] m
         ∧ addToCart (CartItem.with_selectedSupplierName widget None) [widget]
           = [widget] ++ [new]
         ∧ CartItem.selectedSupplierName new = Some (Supplier.name m)
         ∧ CartItem.id new
           = CartItem.id (CartItem.with_selectedSupplierName widget None)
         ∧ CartItem.name new
           = CartItem.name (CartItem.with_selectedSupplierName widget None)
         ∧ CartItem.quantity new
           = CartItem.quantity (CartItem.with_selectedSupplierName widget None)
         ∧ CartItem.availableSuppliers new
           = Some [Supplier.mk "A" 10; Supplier.mk "B" 8]).
Proof.
  assert (Hinit : initStore (persist (mkStore [unselected; mismatched] []) ∅)
    = Some (mkStore [CartItem.with_selectedSupplierName unselected (Some "A");
                     CartItem.with_selectedSupplierName mismatched (Some "A")] []))
    by (vm_compute; reflexivity).
  assert (Hsel : ¬ hasSelection (CartItem.with_selectedSupplierName widget None))
    by (unfold hasSelection; simpl; discriminate).
  assert (Hnone : ∀ item, item ∈ [widget] →
            ¬ sameLine (CartItem.with_selectedSupplierName widget None) item).
  { intros item Hin [_ Hs]. apply list_elem_of_singleton in Hin. subst item.
    discriminate Hs. }
  assert (Hn7 : ∀ s, s ∈ [Supplier.mk "A" 7] → isNumber (Supplier.price s)).
  { intros s Hin. apply list_elem_of_singleton in Hin. subst s. reflexivity. }
  assert (Hn108 : ∀ s, s ∈ [Supplier.mk "A" 10; Supplier.mk "B" 8] →
                       isNumber (Supplier.price s)).
  { intros s Hin. apply elem_of_cons in Hin. destruct Hin as [->|Hin];
      [reflexivity|].
    apply list_elem_of_singleton in Hin. subst s. reflexivity. }
  split.
  - split; [exact Hinit|].
    refine (proj1 cheapest_offer_selected _ _ _ _ Hinit _ _ _ Hn7).
    + simpl. apply list_elem_of_further, list_elem_of_here.
    + reflexivity.
    + discriminate.
  - split; [exact Hsel|]. split; [exact Hnone|].
    refine (proj2 cheapest_offer_selected _ [widget] _ _ _ Hn108 Hsel Hnone).
    + reflexivity.
    + discriminate.
Defined.

Example addToCart_selects_B :
  addToCart (CartItem.with_selectedSupplierName widget None) []
  = [widget].
Proof. reflexivity. Qed.

Example cheapest_tie_is_first :
  cheapestSupplier (Supplier.mk "A" 8) [Supplier.mk "B" 9; Supplier.mk "C" 8]
  = Supplier.mk "A" 8.
Proof. reflexivity. Qed.

(** ** Quantities *)

Lemma itemToAdd_quantity (product : CartItem.t) :
  CartItem.quantity (itemToAdd product) = CartItem.quantity product.
Proof. apply itemToAdd_fields. Qed.

Lemma updateQuantity_positive (productId : Z) (quantity : float)
  (prev : list CartItem.t) :
  positiveCart (updateQuantity productId quantity prev).
Proof.
  apply Forall_forall. intros item [Hq _]%list_elem_of_filter. exact Hq.
Qed.

Lemma placeOrder_items (env : Env) (st : Store) :
  items (placeOrder env st).1 = items st ∨ items (placeOrder env st).1 = [].
Proof.
  destruct (placeOrder_cases env st) as [[a ->]|[o ->]]; simpl; auto.
Qed.

(** C5, as stated, fails for [addToCart]: it stores the quantity of the
    product it is given, so a product of quantity 0 becomes an entry of
    quantity 0 of a cart whose quantities were all positive. *)
Lemma addToCart_keeps_zero_quantity :
  positiveCart (items (mkStore [] []))
  ∧ ¬ positiveCart
        (items (step (AddToCart (CartItem.with_quantity widget 0)) (mkStore [] [])).1).
Proof.
  split; [constructor|].
  intros H. simpl in H. apply Forall_cons in H. destruct H as [H _].
  simpl in H. discriminate H.
Qed.

(** C5 (amended): [updateQuantity productId q] with [q ≤ 0] leaves no
    entry of that id in the cart; and every store operation, [addToCart]
    being given a product of positive quantity, takes a cart whose
    quantities are all positive to a cart whose quantities are all
    positive. *)
Theorem quantities_stay_positive :
  (∀ (productId : Z) (q : float) prev item,
     PrimFloat.leb q 0 = true → item ∈ updateQuantity productId q prev →
     CartItem.id item ≠ productId)
  ∧ (∀ op st,
       positiveCart (items st) →
       (∀ product, op = AddToCart product →
                   PrimFloat.ltb 0 (CartItem.quantity product) = true) →
       positiveCart (items (step op st).1)).
Proof.
  split.
  - intros productId q prev item Hq [Hpos Hin]%list_elem_of_filter Hid.
    apply list_elem_of_fmap in Hin. destruct Hin as (item0 & -> & _).
    unfold setQuantity in Hpos, Hid.
    destruct (decide (CartItem.id item0 = productId)) as [He|Hne].
    + simpl in Hpos. apply leb_not_ltb in Hq. congruence.
    + contradiction.
  - intros op st Hpos Hadd. unfold positiveCart in *.
    destruct op as [product|productId|productId quantity| |itemId supplierName|env];
      simpl.
    + specialize (Hadd product eq_refl). unfold addToCart.
      destruct (list_find (sameLine product) (items st)) as [[i existing]|] eqn:Hfind.
      * apply list_find_Some in Hfind. destruct Hfind as (Hi & _ & _).
        apply Forall_insert; [exact Hpos|]. simpl.
        rewrite Forall_forall in Hpos.
        apply list_elem_of_lookup_2 in Hi. specialize (Hpos existing Hi).
        simpl in Hpos. apply add_pos; assumption.
      * apply Forall_app. split; [exact Hpos|].
        apply Forall_singleton. rewrite itemToAdd_quantity. exact Hadd.
    + apply Forall_forall. intros item [_ Hin]%list_elem_of_filter.
      rewrite Forall_forall in Hpos. apply Hpos. exact Hin.
    + apply updateQuantity_positive.
    + constructor.
    + apply Forall_forall. intros item Hin.
      apply list_elem_of_fmap in Hin. destruct Hin as (item0 & -> & Hin).
      rewrite Forall_forall in Hpos. specialize (Hpos item0 Hin).
      unfold setSupplier. destruct (decide _); exact Hpos.
    + destruct (placeOrder_items env st) as [->| ->]; [exact Hpos | constructor].
Qed.

Lemma quantities_stay_positive_witness :
  (PrimFloat.leb 0 0 = true
   ∧ widget ∈ updateQuantity 3 0 [mismatched; widget]
   ∧ CartItem.id widget ≠ 3)
  ∧ (positiveCart (items (mkStore [widget] []))
     ∧ (∀ product, AddToCart widget = AddToCart product →
                   PrimFloat.ltb 0 (CartItem.quantity product) = true)
     ∧ positiveCart (items (step (AddToCart widget) (mkStore [widget] [])).1)).
Proof.
  assert (Hin : widget ∈ updateQuantity 3 0 [mismatched; widget])
    by (vm_compute; apply list_elem_of_here).
  assert (Hq : PrimFloat.leb 0 0 = true) by reflexivity.
  assert (Hpos : positiveCart (items (mkStore [widget] [])))
    by (repeat constructor).
  assert (Hadd : ∀ product, AddToCart widget = AddToCart product →
                            PrimFloat.ltb 0 (CartItem.quantity product) = true).
  { intros product Heq. injection Heq as <-. reflexivity. }
  split.
  - split; [exact Hq|]. split; [exact Hin|].
    exact (proj1 quantities_stay_positive 3 0%float [mismatched; widget] widget Hq Hin).
  - split; [exact Hpos|]. split; [exact Hadd|].
    exact (proj2 quantities_stay_positive (AddToCart widget) (mkStore [widget] [])
             Hpos Hadd).
Defined.

(** A quantity that is [NaN] is not positive either, and is removed. *)
Example updateQuantity_nan :
  updateQuantity 1 nan [mismatched; widget] = [mismatched].
Proof. reflexivity. Qed.

(** C9: [updateQuantity productId q] keeps exactly the entries whose
    quantity after the update is positive.  An entry of another id whose
    quantity was not positive before the call is removed as well; the
    entries of another id that stay are the ones of the cart, unchanged and
    in the same order. *)
Theorem updateQuantity_frame (productId : Z) (q : float) (prev : list CartItem.t) :
  (∀ item, item ∈ updateQuantity productId q prev →
           PrimFloat.ltb 0 (CartItem.quantity item) = true)
  ∧ (∀ item, item ∈ prev → CartItem.id item ≠ productId →
       PrimFloat.leb (CartItem.quantity item) 0 = true →
       item ∉ updateQuantity productId q prev)
  ∧ filter (λ item, CartItem.id item ≠ productId) (updateQuantity productId q prev)
    = filter (λ item, CartItem.id item ≠ productId
                      ∧ PrimFloat.ltb 0 (CartItem.quantity item) = true) prev
  ∧ filter (λ item, CartItem.id item = productId) (updateQuantity productId q prev)
    = if PrimFloat.ltb 0 q
      then (λ item, CartItem.with_quantity item q)
             <$> filter (λ item, CartItem.id item = productId) prev
      else [].
Proof.
  assert (Hpos : ∀ item, item ∈ updateQuantity productId q prev →
                         PrimFloat.ltb 0 (CartItem.quantity item) = true).
  { intros item [Hq _]%list_elem_of_filter. exact Hq. }
  split; [exact Hpos|]. split.
  { intros item _ _ Hq Hin. specialize (Hpos item Hin).
    apply leb_not_ltb in Hq. congruence. }
  clear Hpos. unfold updateQuantity. split.
  - induction prev as [|item prev IH]; [reflexivity|].
    rewrite fmap_cons. unfold setQuantity at 1.
    destruct (decide (CartItem.id item = productId)) as [He|Hne].
    + rewrite (filter_cons _ item prev).
      destruct (decide (CartItem.id item ≠ productId
                        ∧ PrimFloat.ltb 0 (CartItem.quantity item) = true))
        as [[Hc _]|_]; [contradiction|].
      rewrite filter_cons. destruct (decide (_ = true)); [|exact IH].
      rewrite filter_cons. simpl.
      destruct (decide (CartItem.id item ≠ productId)); [contradiction|exact IH].
    + rewrite (filter_cons _ item prev). rewrite filter_cons.
      destruct (decide (PrimFloat.ltb 0 (CartItem.quantity item) = true)) as [Hq|Hq].
      * rewrite filter_cons.
        destruct (decide (CartItem.id item ≠ productId)); [|contradiction].
        destruct (decide (CartItem.id item ≠ productId
                          ∧ PrimFloat.ltb 0 (CartItem.quantity item) = true))
          as [_|Hc]; [|exfalso; apply Hc; auto].
        rewrite IH. reflexivity.
      * destruct (decide (CartItem.id item ≠ productId
                          ∧ PrimFloat.ltb 0 (CartItem.quantity item) = true))
          as [[_ Hc]|_]; [contradiction|exact IH].
  - induction prev as [|item prev IH].
    { destruct (PrimFloat.ltb 0 q); reflexivity. }
    rewrite fmap_cons. unfold setQuantity at 1.
    destruct (decide (CartItem.id item = productId)) as [He|Hne].
    + rewrite (filter_cons _ item prev).
      destruct (decide (CartItem.id item = productId)); [|contradiction].
      rewrite filter_cons. simpl.
      destruct (PrimFloat.ltb 0 q) eqn:Hq.
      * destruct (decide (true = true)); [|contradiction].
        rewrite filter_cons. simpl.
        destruct (decide (CartItem.id item = productId)); [|contradiction].
        rewrite IH. reflexivity.
      * destruct (decide (false = true)); [discriminate|]. exact IH.
    + rewrite (filter_cons _ item prev).
      destruct (decide (CartItem.id item = productId)); [contradiction|].
      rewrite filter_cons.
      destruct (decide (PrimFloat.ltb 0 (CartItem.quantity item) = true)); [|exact IH].
      rewrite filter_cons.
      destruct (decide (CartItem.id item = productId)); [contradiction|exact IH].
Qed.

Example updateQuantity_sweeps_other_ids :
  updateQuantity 1 5 [CartItem.with_quantity mismatched 0; widget; unselected]
  = [CartItem.with_quantity widget 5; unselected].
Proof. reflexivity. Qed.

(** ** The order history *)

Lemma run_snoc (ops : list Op) (op : Op) (st : Store) :
  run (ops ++ [op]) st
  = ((step op (run ops st).1).1, (run ops st).2 ++ (step op (run ops st).1).2).
Proof.
  unfold run. rewrite foldl_snoc.
  destruct (step op _) as [st' evs]. reflexivity.
Qed.

Lemma step_orders (op : Op) (st : Store) :
  orders (step op st).1 = orders st
  ∨ ∃ o, orders (step op st).1 = orders st ++ [o].
Proof.
  destruct op as [product|productId|productId quantity| |itemId supplierName|env];
    simpl; auto.
  destruct (placeOrder_cases env st) as [[a ->]|[o ->]]; simpl; eauto.
Qed.

(** C10: the five cart operations leave the order history as it is;
    [placeOrder] either gives up, leaving the whole store as it is, or
    succeeds and puts one new order after the orders already there.  Hence
    whatever operations are run, the orders the history held are still
    there, unchanged, at the positions they had. *)
Theorem orders_append_only :
  (∀ op st,
     match op with
     | PlaceOrder env =>
         (¬ succeeded (step op st) ∧ (step op st).1 = st)
         ∨ (succeeded (step op st)
            ∧ ∃ o, (step op st).1 = mkStore [] (orders st ++ [o]))
     | _ => orders (step op st).1 = orders st ∧ (step op st).2 = []
     end)
  ∧ (∀ ops st, orders st `prefix_of` orders (run ops st).1).
Proof.
  split.
  - intros op st.
    destruct op as [product|productId|productId quantity| |itemId supplierName|env];
      simpl; auto.
    unfold succeeded.
    destruct (placeOrder_cases env st) as [[a ->]|[o ->]]; simpl.
    + left. split; [|reflexivity].
      intros Hin. apply list_elem_of_singleton in Hin. discriminate.
    + right. split; [apply list_elem_of_here | eauto].
  - intros ops st. induction ops as [|op ops IH] using rev_ind.
    + reflexivity.
    + rewrite run_snoc. simpl.
      destruct (step_orders op (run ops st).1) as [->|[o ->]].
      * exact IH.
      * etrans; [exact IH|]. apply prefix_app_r. reflexivity.
Qed.

(** ** Order identifiers *)

(** C6 does not hold of the code: the identifier is made of the
    millisecond clock and of one of a thousand random values, and two
    checkouts that read the same two values create two orders with the same
    identifier. *)
Theorem orderId_collision :
  (run [AddToCart widget; PlaceOrder env0; AddToCart widget; PlaceOrder env0]
     (mkStore [] [])).2
  = [CheckoutSuccess; CheckoutSuccess]
  ∧ Order.id <$> orders
      (run [AddToCart widget; PlaceOrder env0; AddToCart widget; PlaceOrder env0]
         (mkStore [] [])).1
    = ["ORDER-1700000000000-42"; "ORDER-1700000000000-42"]
  ∧ ¬ NoDup (Order.id <$> orders
      (run [AddToCart widget; PlaceOrder env0; AddToCart widget; PlaceOrder env0]
         (mkStore [] [])).1).
Proof.
  assert (Hids : Order.id <$> orders
      (run [AddToCart widget; PlaceOrder env0; AddToCart widget; PlaceOrder env0]
         (mkStore [] [])).1
    = ["ORDER-1700000000000-42"; "ORDER-1700000000000-42"])
    by (vm_compute; reflexivity).
  split; [vm_compute; reflexivity|]. split; [exact Hids|].
  rewrite Hids. intros Hnd. apply NoDup_cons in Hnd. destruct Hnd as [Hnot _].
  apply Hnot. apply list_elem_of_here.
Qed.

(** ** Storage *)

Lemma jsonStable_isNumber (x : float) : jsonStable x → isNumber x.
Proof.
  intros [Hfin _]. unfold isNumber. unfold PrimFloat.is_finite in Hfin.
  destruct (PrimFloat.is_nan x); [discriminate Hfin | reflexivity].
Qed.

Lemma is_zero_spec (x : float) :
  PrimFloat.is_zero x = true → ∃ s, Prim2SF x = S754_zero s.
Proof.
  unfold PrimFloat.is_zero. rewrite FloatAxioms.eqb_spec.
  change (Prim2SF 0) with (S754_zero false).
  unfold SFeqb, SFcompare.
  destruct (Prim2SF x) as [s|[|]| |[|] m e]; intros H; try discriminate H.
  exists s. reflexivity.
Qed.

Lemma jsonOfNumber_stable (x : float) : jsonStable x → jsonOfNumber x = JNumber x.
Proof.
  intros [Hfin Hneg]. unfold jsonOfNumber. rewrite Hfin.
  destruct (PrimFloat.is_zero x) eqn:Hz; [|reflexivity].
  destruct (is_zero_spec x Hz) as [s Hs]. f_equal.
  destruct s; [contradiction|].
  rewrite <- (SF2Prim_Prim2SF x), Hs. reflexivity.
Qed.

Lemma supplier_round_trip (s : Supplier.t) :
  jsonStable (Supplier.price s) → supplierOfJson (jsonOfSupplier s) = Some s.
Proof.
  intros Hp. destruct s as [name price]. simpl in Hp.
  unfold supplierOfJson, jsonOfSupplier. simpl.
  rewrite (jsonOfNumber_stable price Hp). reflexivity.
Qed.

Lemma orderItem_round_trip (line : OrderItem.t) :
  stableLine line → orderItemOfJson (jsonOfOrderItem line) = Some line.
Proof.
  intros (Hq & Hp & Ht).
  destruct line as [productId productName quantity supplierName supplierPrice itemTotal].
  simpl in Hq, Hp, Ht. unfold orderItemOfJson, jsonOfOrderItem. simpl.
  rewrite (jsonOfNumber_stable quantity Hq), (jsonOfNumber_stable supplierPrice Hp),
    (jsonOfNumber_stable itemTotal Ht).
  reflexivity.
Qed.

Lemma asArray_round_trip {A} (dec : json → option A) (enc : A → json)
  (P : A → Prop) (l : list A) :
  (∀ x, P x → dec (enc x) = Some x) → Forall P l →
  asArray dec (JArray (enc <$> l)) = Some l.
Proof.
  intros H Hl. simpl. apply mapM_fmap_Forall_Some.
  eapply Forall_impl; [exact Hl | exact H].
Qed.

Lemma cartItem_round_trip (item : CartItem.t) :
  stableItem item → cartItemOfJson (jsonOfCartItem item) = Some item.
Proof.
  intros [Hq Hoffers].
  destruct item as [id name quantity [suppliers|] [selected|]];
    simpl in Hq, Hoffers; unfold cartItemOfJson, jsonOfCartItem; simpl;
    rewrite (jsonOfNumber_stable quantity Hq); simpl;
    try rewrite (mapM_fmap_Forall_Some supplierOfJson jsonOfSupplier suppliers
                   (Forall_impl _ _ _ (Hoffers suppliers eq_refl)
                      (λ s H, supplier_round_trip s H)));
    reflexivity.
Qed.

Lemma order_round_trip (o : Order.t) :
  stableOrder o → orderOfJson (jsonOfOrder o) = Some o.
Proof.
  intros [Ht Hlines]. destruct o as [id date lines totalAmount].
  simpl in Ht, Hlines. unfold orderOfJson, jsonOfOrder. simpl.
  rewrite (mapM_fmap_Forall_Some orderItemOfJson jsonOfOrderItem lines
             (Forall_impl _ _ _ Hlines orderItem_round_trip)).
  simpl. rewrite (jsonOfNumber_stable totalAmount Ht). reflexivity.
Qed.

Lemma initStore_persist (st : Store) (storage : gmap string json) :
  stableStore st →
  initStore (persist st storage) = Some (mkStore (loadItem <$> items st) (orders st)).
Proof.
  intros [Hitems Horders]. unfold initStore, persist.
  rewrite lookup_insert_eq.
  rewrite (lookup_insert_ne _ "orders" "cartItems") by (intros Heq; discriminate Heq).
  rewrite lookup_insert_eq.
  rewrite (asArray_round_trip cartItemOfJson jsonOfCartItem stableItem _
             cartItem_round_trip Hitems).
  rewrite (asArray_round_trip orderOfJson jsonOfOrder stableOrder _
             order_round_trip Horders).
  reflexivity.
Qed.

Lemma loadItem_reloadedAs (item : CartItem.t) :
  (∀ offers, CartItem.availableSuppliers item = Some offers →
             Forall (λ s, isNumber (Supplier.price s)) offers) →
  reloadedAs item (loadItem item).
Proof.
  intros Hnum. unfold reloadedAs.
  destruct (loadItem_fields item) as (Hid & Hname & Hq & Hoffers).
  do 4 (split; [assumption|]).
  destruct (CartItem.availableSuppliers item) as [[|first rest]|] eqn:Hs.
  - unfold loadItem. rewrite Hs. reflexivity.
  - exists (cheapestSupplier first rest). split.
    + apply cheapestSupplier_firstCheapest. apply Forall_forall.
      apply Hnum. reflexivity.
    + apply loadItem_selects_cheapest. exact Hs.
  - unfold loadItem. rewrite Hs. reflexivity.
Qed.

(** C8, as stated, fails: a quantity that is not finite is written as
    [null], so the cart is not read back.  The cart below is reached from
    the empty store. *)
Lemma storage_loses_infinite_quantity :
  (run [AddToCart widget; UpdateQuantity 1 infinity] (mkStore [] [])).1
  = mkStore [CartItem.with_quantity widget infinity] []
  ∧ persist (mkStore [CartItem.with_quantity widget infinity] []) ∅ !! "cartItems"
    = Some (JArray
        [JObject
           [("id", JInteger 1); ("name", JString "Widget"); ("quantity", JNull);
            ("availableSuppliers",
             JArray [JObject [("name", JString "A"); ("price", JNumber 10)];
                     JObject [("name", JString "B"); ("price", JNumber 8)]]);
            ("selectedSupplierName", JString "B")]])
  ∧ initStore (persist (mkStore [CartItem.with_quantity widget infinity] []) ∅) = None
  ∧ ¬ ∃ st', initStore (persist (mkStore [CartItem.with_quantity widget infinity] []) ∅)
             = Some st'
             ∧ Forall2 (λ item loaded,
                          CartItem.quantity loaded = CartItem.quantity item)
                 [CartItem.with_quantity widget infinity] (items st').
Proof.
  assert (Hnone :
    initStore (persist (mkStore [CartItem.with_quantity widget infinity] []) ∅) = None)
    by (vm_compute; reflexivity).
  split; [reflexivity|]. split; [vm_compute; reflexivity|].
  split; [exact Hnone|].
  intros (st' & Hst' & _). rewrite Hnone in Hst'. discriminate Hst'.
Qed.

(** C8 (amended): for a cart list and an order list whose numbers are
    finite and are not the negative zero, what the two persistence effects
    write is read back by the two initialisers as the same order list and,
    entry by entry, a cart list with the same ids, names, quantities and
    offers; the selection of an entry with a non-empty list of offers is the
    name of its lowest-price offer, the first one on a tie, and the selection
    of any other entry is the one that was written. *)
Theorem storage_round_trip (st : Store) (storage : gmap string json) :
  stableStore st →
  ∃ st',
    initStore (persist st storage) = Some st'
    ∧ orders st' = orders st
    ∧ Forall2 reloadedAs (items st) (items st').
Proof.
  intros Hst. exists (mkStore (loadItem <$> items st) (orders st)).
  split; [apply initStore_persist; exact Hst|].
  split; [reflexivity|]. simpl.
  apply Forall2_fmap_r, Forall_Forall2_diag.
  destruct Hst as [Hitems _].
  eapply Forall_impl; [exact Hitems|].
  intros item [_ Hoffers]. apply loadItem_reloadedAs.
  intros offers Ho. eapply Forall_impl; [exact (Hoffers offers Ho)|].
  intros s. apply jsonStable_isNumber.
Qed.

Lemma stableItem_widget : stableItem widget.
Proof.
  split; [stable_number|]. intros offers Ho. injection Ho as <-.
  repeat constructor; vm_compute; discriminate.
Qed.

Lemma stableItem_unselected : stableItem unselected.
Proof.
  split; [stable_number|]. intros offers Ho. injection Ho as <-.
  repeat constructor; vm_compute; discriminate.
Qed.

Lemma stableItem_mismatched : stableItem mismatched.
Proof.
  split; [stable_number|]. intros offers Ho. injection Ho as <-.
  repeat constructor; vm_compute; discriminate.
Qed.

Lemma stableOrder_widgetOrder : stableOrder widgetOrder.
Proof.
  split; [stable_number|]. apply Forall_singleton.
  split; [stable_number|]. split; stable_number.
Qed.

Lemma storage_round_trip_witness :
  stableStore (mkStore [widget; unselected] [widgetOrder])
  ∧ ∃ st',
      initStore (persist (mkStore [widget; unselected] [widgetOrder]) ∅) = Some st'
      ∧ orders st' = orders (mkStore [widget; unselected] [widgetOrder])
      ∧ Forall2 reloadedAs (items (mkStore [widget; unselected] [widgetOrder]))
          (items st').
Proof.
  assert (Hst : stableStore (mkStore [widget; unselected] [widgetOrder])).
  { split; simpl.
    - apply Forall_cons. split; [exact stableItem_widget|].
      apply Forall_singleton. exact stableItem_unselected.
    - apply Forall_singleton. exact stableOrder_widgetOrder. }
  split; [exact Hst|].
  exact (storage_round_trip (mkStore [widget; unselected] [widgetOrder]) ∅ Hst).
Defined.

Example storage_round_trip_widget :
  initStore (persist (mkStore [widget; unselected] [widgetOrder]) ∅)
  = Some (mkStore [widget; CartItem.with_selectedSupplierName unselected (Some "A")]
            [widgetOrder]).
Proof. vm_compute. reflexivity. Qed.

(** A quantity that is not an integer is read back as it was written. *)
Example storage_round_trip_fraction :
  initStore (persist (mkStore [CartItem.with_quantity widget 1.5] []) ∅)
  = Some (mkStore [CartItem.with_quantity widget 1.5] []).
Proof. vm_compute. reflexivity. Qed.

(** The negative zero is written as [0]. *)
Example storage_negative_zero :
  initStore (persist (mkStore [CartItem.with_quantity widget (-0)] []) ∅)
  = Some (mkStore [CartItem.with_quantity widget 0] []).
Proof. vm_compute. reflexivity. Qed.

(** * Further properties of the store *)

(** ** How the cart operations compose *)

Lemma itemToAdd_id (product : CartItem.t) :
  CartItem.id (itemToAdd product) = CartItem.id product.
Proof. apply itemToAdd_fields. Qed.

Lemma insert_middle {A} (l : list A) (i : nat) (x y : A) :
  l !! i = Some x →
  l = take i l ++ x :: drop (S i) l
  ∧ <[i := y]> l = take i l ++ y :: drop (S i) l.
Proof.
  intros Hi. split.
  - symmetry. apply take_drop_middle. exact Hi.
  - apply insert_take_drop. eapply lookup_lt_Some. exact Hi.
Qed.

Lemma filter_insert_dropped {A} (P : A → Prop) `{∀ x, Decision (P x)}
  (l : list A) (i : nat) (x y : A) :
  l !! i = Some x → ¬ P x → ¬ P y → filter P (<[i := y]> l) = filter P l.
Proof.
  intros Hi Hx Hy. destruct (insert_middle l i x y Hi) as [Hl Hins].
  rewrite Hins. rewrite Hl at 3.
  rewrite !filter_app, !filter_cons.
  destruct (decide (P x)); [contradiction|].
  destruct (decide (P y)); [contradiction|]. reflexivity.
Qed.

(** X1: adding a product and then removing its id gives the cart that
    removing the id alone gives, whether the product was merged into an
    entry or appended. *)
Theorem removeFromCart_addToCart (product : CartItem.t) (prev : list CartItem.t) :
  removeFromCart (CartItem.id product) (addToCart product prev)
  = removeFromCart (CartItem.id product) prev.
Proof.
  unfold removeFromCart, addToCart.
  destruct (list_find (sameLine product) prev) as [[i existing]|] eqn:Hfind.
  - apply list_find_Some in Hfind. destruct Hfind as (Hi & [Hid _] & _).
    apply (filter_insert_dropped _ prev i existing); [exact Hi| |].
    + intros Hne. apply Hne. exact Hid.
    + simpl. intros Hne. apply Hne. exact Hid.
  - rewrite filter_app, filter_cons.
    destruct (decide (CartItem.id (itemToAdd product) ≠ CartItem.id product))
      as [Hne|_].
    + exfalso. apply Hne. apply itemToAdd_id.
    + rewrite filter_nil, app_nil_r. reflexivity.
Qed.

(** X2: on a cart whose quantities are all positive, setting the quantity
    of an id to zero or less is the same as removing the id. *)
Theorem updateQuantity_nonpositive_removes (productId : Z) (q : float)
  (prev : list CartItem.t) :
  positiveCart prev → PrimFloat.leb q 0 = true →
  updateQuantity productId q prev = removeFromCart productId prev.
Proof.
  intros Hpos Hq. apply leb_not_ltb in Hq. unfold updateQuantity, removeFromCart.
  induction Hpos as [|item prev Hitem _ IH]; [reflexivity|].
  rewrite fmap_cons. unfold setQuantity at 1.
  destruct (decide (CartItem.id item = productId)) as [He|Hne].
  - rewrite !filter_cons. simpl.
    destruct (decide (PrimFloat.ltb 0 q = true)); [congruence|].
    destruct (decide (CartItem.id item ≠ productId)); [contradiction|exact IH].
  - rewrite !filter_cons.
    destruct (decide (PrimFloat.ltb 0 (CartItem.quantity item) = true));
      [|contradiction].
    destruct (decide (CartItem.id item ≠ productId)); [|contradiction].
    rewrite IH. reflexivity.
Qed.

Lemma updateQuantity_nonpositive_removes_witness :
  positiveCart [mismatched; widget] ∧ PrimFloat.leb (-1) 0 = true
  ∧ updateQuantity 3 (-1) [mismatched; widget] = removeFromCart 3 [mismatched; widget].
Proof.
  assert (Hpos : positiveCart [mismatched; widget]) by (repeat constructor).
  assert (Hq : PrimFloat.leb (-1) 0 = true) by reflexivity.
  split; [exact Hpos|]. split; [exact Hq|].
  exact (updateQuantity_nonpositive_removes 3 (-1) [mismatched; widget] Hpos Hq).
Defined.

(** X3: on a cart whose quantities are all positive, setting a positive
    quantity removes nothing: the cart keeps its length and its order, the
    entries of the id get the new quantity and the others stay as they
    are. *)
Theorem updateQuantity_positive_keeps (productId : Z) (q : float)
  (prev : list CartItem.t) :
  positiveCart prev → PrimFloat.ltb 0 q = true →
  updateQuantity productId q prev = setQuantity productId q <$> prev
  ∧ length (updateQuantity productId q prev) = length prev.
Proof.
  intros Hpos Hq.
  assert (Heq : updateQuantity productId q prev = setQuantity productId q <$> prev).
  { unfold updateQuantity. induction Hpos as [|item prev Hitem _ IH]; [reflexivity|].
    rewrite fmap_cons, filter_cons.
    destruct (decide (PrimFloat.ltb 0
                        (CartItem.quantity (setQuantity productId q item)) = true))
      as [_|Hn].
    - rewrite IH. reflexivity.
    - exfalso. apply Hn. unfold setQuantity.
      destruct (decide (CartItem.id item = productId)); [exact Hq|exact Hitem]. }
  split; [exact Heq|]. rewrite Heq. apply length_fmap.
Qed.

Lemma updateQuantity_positive_keeps_witness :
  positiveCart [mismatched; widget] ∧ PrimFloat.ltb 0 7 = true
  ∧ updateQuantity 1 7 [mismatched; widget] = setQuantity 1 7 <$> [mismatched; widget]
  ∧ length (updateQuantity 1 7 [mismatched; widget]) = length [mismatched; widget].
Proof.
  assert (Hpos : positiveCart [mismatched; widget]) by (repeat constructor).
  assert (Hq : PrimFloat.ltb 0 7 = true) by reflexivity.
  split; [exact Hpos|]. split; [exact Hq|].
  exact (updateQuantity_positive_keeps 1 7 [mismatched; widget] Hpos Hq).
Defined.

(** X4: an operation on an id that no entry of the cart has leaves the
    cart as it is: [removeFromCart] and [selectSupplierForItem] always,
    [updateQuantity] when the quantities of the cart are all positive. *)
Theorem absent_id_no_change (productId : Z) (q : float) (supplierName : option string)
  (prev : list CartItem.t) :
  (∀ item, item ∈ prev → CartItem.id item ≠ productId) →
  removeFromCart productId prev = prev
  ∧ selectSupplierForItem productId supplierName prev = prev
  ∧ (positiveCart prev → updateQuantity productId q prev = prev).
Proof.
  intros Habs.
  assert (Hmap : ∀ f : CartItem.t → CartItem.t,
            (∀ item, CartItem.id item ≠ productId → f item = item) →
            f <$> prev = prev).
  { intros f Hf. induction prev as [|item prev IH]; [reflexivity|].
    rewrite fmap_cons. rewrite Hf by (apply Habs, list_elem_of_here).
    rewrite IH; [reflexivity|].
    intros it Hin. apply Habs, list_elem_of_further, Hin. }
  split; [|split].
  - unfold removeFromCart. clear Hmap.
    induction prev as [|item prev IH]; [reflexivity|].
    rewrite filter_cons.
    destruct (decide (CartItem.id item ≠ productId)) as [_|Hn].
    + rewrite IH; [reflexivity|].
      intros it Hin. apply Habs, list_elem_of_further, Hin.
    + exfalso. apply Hn. apply Habs, list_elem_of_here.
  - apply Hmap. intros item Hne. unfold setSupplier.
    destruct (decide (CartItem.id item = productId)); [contradiction|reflexivity].
  - intros Hpos. unfold updateQuantity. rewrite Hmap.
    + clear Hmap Habs. induction Hpos as [|item prev Hitem _ IH]; [reflexivity|].
      rewrite filter_cons.
      destruct (decide (PrimFloat.ltb 0 (CartItem.quantity item) = true));
        [|contradiction].
      rewrite IH. reflexivity.
    + intros item Hne. unfold setQuantity.
      destruct (decide (CartItem.id item = productId)); [contradiction|reflexivity].
Qed.

Lemma absent_id_no_change_witness :
  (∀ item, item ∈ [mismatched; widget] → CartItem.id item ≠ 9)
  ∧ removeFromCart 9 [mismatched; widget] = [mismatched; widget]
  ∧ selectSupplierForItem 9 (Some "A") [mismatched; widget] = [mismatched; widget]
  ∧ (positiveCart [mismatched; widget] →
     updateQuantity 9 0 [mismatched; widget] = [mismatched; widget]).
Proof.
  assert (Habs : ∀ item, item ∈ [mismatched; widget] → CartItem.id item ≠ 9).
  { intros item Hin Hid. apply elem_of_cons in Hin. destruct Hin as [->|Hin].
    - discriminate Hid.
    - apply list_elem_of_singleton in Hin. subst item. discriminate Hid. }
  split; [exact Habs|].
  exact (absent_id_no_change 9 0 (Some "A") [mismatched; widget] Habs).
Defined.

(** X6: a product that comes without a selection is appended as a new
    entry whenever every entry of the cart has a selection, also when
    entries of its id are already there. *)
Theorem addToCart_unselected_appends (product : CartItem.t) (prev : list CartItem.t) :
  (∀ item, item ∈ prev → hasSelection item) →
  ¬ hasSelection product →
  addToCart product prev = prev ++ [itemToAdd product].
Proof.
  intros Hall Hno. unfold addToCart.
  assert (Hfind : list_find (sameLine product) prev = None).
  { apply list_find_None, Forall_forall. intros item Hin [_ Hsel].
    apply Hno. unfold hasSelection in *. rewrite <- Hsel. apply Hall. exact Hin. }
  rewrite Hfind. reflexivity.
Qed.

Lemma addToCart_unselected_appends_witness :
  (∀ item, item ∈ [widget] → hasSelection item)
  ∧ ¬ hasSelection (CartItem.with_selectedSupplierName widget None)
  ∧ addToCart (CartItem.with_selectedSupplierName widget None) [widget]
    = [widget] ++ [itemToAdd (CartItem.with_selectedSupplierName widget None)].
Proof.
  assert (Hall : ∀ item, item ∈ [widget] → hasSelection item).
  { intros item Hin. apply list_elem_of_singleton in Hin. subst item. reflexivity. }
  assert (Hno : ¬ hasSelection (CartItem.with_selectedSupplierName widget None))
    by (unfold hasSelection; simpl; discriminate).
  split; [exact Hall|]. split; [exact Hno|].
  exact (addToCart_unselected_appends _ [widget] Hall Hno).
Defined.

Example addToCart_twice_duplicates :
  addToCart (CartItem.with_selectedSupplierName widget None)
    (addToCart (CartItem.with_selectedSupplierName widget None) [])
  = [widget; widget].
Proof. reflexivity. Qed.

(** ** Resolution of the selected supplier *)

Lemma same_name_same_offer (offers : list Supplier.t) (s s' : Supplier.t) :
  NoDup (Supplier.name <$> offers) → s ∈ offers → s' ∈ offers →
  Supplier.name s = Supplier.name s' → s = s'.
Proof.
  induction offers as [|x offers IH]; intros Hnd Hs Hs' Hname.
  - inversion Hs.
  - rewrite fmap_cons in Hnd. apply NoDup_cons in Hnd. destruct Hnd as [Hx Hnd].
    apply elem_of_cons in Hs. apply elem_of_cons in Hs'.
    destruct Hs as [->|Hs], Hs' as [->|Hs']; [reflexivity| | |auto].
    + exfalso. apply Hx. rewrite Hname. apply list_elem_of_fmap. eauto.
    + exfalso. apply Hx. rewrite <- Hname. apply list_elem_of_fmap. eauto.
Qed.

Lemma selectedSupplier_by_name (item : CartItem.t) (offers : list Supplier.t)
  (s : Supplier.t) :
  CartItem.availableSuppliers item = Some offers →
  CartItem.selectedSupplierName item = Some (Supplier.name s) →
  s ∈ offers →
  (∃ s', selectedSupplier item = Some s' ∧ s' ∈ offers
         ∧ Supplier.name s' = Supplier.name s)
  ∧ (NoDup (Supplier.name <$> offers) → selectedSupplier item = Some s).
Proof.
  intros Hoffers Hsel Hin. unfold selectedSupplier. rewrite Hoffers, Hsel.
  destruct (list_find_elem_of
              (λ s0, Some (Supplier.name s0) = Some (Supplier.name s)) offers s Hin
              eq_refl) as [[i s'] Hfind].
  rewrite Hfind. simpl.
  apply list_find_Some in Hfind. destruct Hfind as (Hi & Hname & _).
  apply list_elem_of_lookup_2 in Hi. injection Hname as Hname.
  split.
  - exists s'. auto.
  - intros Hnd. f_equal. apply (same_name_same_offer offers); auto.
Qed.

Lemma foldl_cheaper_elem (l : list Supplier.t) (m : Supplier.t) :
  foldl cheaper m l ∈ m :: l.
Proof.
  revert m. induction l as [|x l IH]; intros m; [apply list_elem_of_here|].
  simpl. specialize (IH (cheaper m x)).
  apply elem_of_cons in IH. destruct IH as [->|IH].
  - unfold cheaper. destruct (PrimFloat.ltb _ _).
    + apply list_elem_of_further, list_elem_of_here.
    + apply list_elem_of_here.
  - do 2 apply list_elem_of_further. exact IH.
Qed.

Lemma cheapestSupplier_elem first rest :
  cheapestSupplier first rest ∈ first :: rest.
Proof.
  unfold cheapestSupplier. simpl. rewrite cheaper_first. apply foldl_cheaper_elem.
Qed.

(** X7: the entry that initialisation gives for an item with offers always
    resolves, to an offer that has the name of the cheapest one; when the
    names of the offers are pairwise distinct it resolves to the cheapest
    offer itself. *)
Theorem loadItem_resolves (item : CartItem.t) first rest :
  CartItem.availableSuppliers item = Some (first :: rest) →
  (∃ s, selectedSupplier (loadItem item) = Some s
        ∧ s ∈ first :: rest
        ∧ Supplier.name s = Supplier.name (cheapestSupplier first rest))
  ∧ (NoDup (Supplier.name <$> first :: rest) →
     selectedSupplier (loadItem item) = Some (cheapestSupplier first rest)).
Proof.
  intros Hoffers.
  apply (selectedSupplier_by_name (loadItem item) (first :: rest)).
  - rewrite loadItem_availableSuppliers. exact Hoffers.
  - apply loadItem_selects_cheapest. exact Hoffers.
  - apply cheapestSupplier_elem.
Qed.

Lemma loadItem_resolves_witness :
  CartItem.availableSuppliers unselected = Some [Supplier.mk "A" 3]
  ∧ (∃ s, selectedSupplier (loadItem unselected) = Some s
          ∧ s ∈ [Supplier.mk "A" 3]
          ∧ Supplier.name s = Supplier.name (cheapestSupplier (Supplier.mk "A" 3) []))
  ∧ (NoDup (Supplier.name <$> [Supplier.mk "A" 3]) →
     selectedSupplier (loadItem unselected)
     = Some (cheapestSupplier (Supplier.mk "A" 3) [])).
Proof.
  split; [reflexivity|].
  exact (loadItem_resolves unselected (Supplier.mk "A" 3) [] eq_refl).
Defined.

(** Two offers of one name: the cheaper one is selected by name, and the
    name resolves to the first offer of that name. *)
Example loadItem_duplicate_names :
  selectedSupplier
    (loadItem (CartItem.mk 1 "Widget" 1
                 (Some [Supplier.mk "A" 10; Supplier.mk "A" 8]) None))
  = Some (Supplier.mk "A" 10).
Proof. reflexivity. Qed.

(** X8: [selectSupplierForItem] with the name of an offer of an entry of
    that id makes the entry resolve to an offer of that name, the very offer
    when the names of the entry's offers are pairwise distinct; the entry is
    otherwise unchanged and keeps its place. *)
Theorem selectSupplierForItem_resolves (itemId : Z) (prev : list CartItem.t)
  (j : nat) (item : CartItem.t) (offers : list Supplier.t) (s : Supplier.t) :
  prev !! j = Some item →
  CartItem.id item = itemId →
  CartItem.availableSuppliers item = Some offers →
  s ∈ offers →
  selectSupplierForItem itemId (Some (Supplier.name s)) prev !! j
  = Some (CartItem.with_selectedSupplierName item (Some (Supplier.name s)))
  ∧ (∃ s', selectedSupplier
             (CartItem.with_selectedSupplierName item (Some (Supplier.name s)))
           = Some s'
           ∧ s' ∈ offers ∧ Supplier.name s' = Supplier.name s)
  ∧ (NoDup (Supplier.name <$> offers) →
     selectedSupplier
       (CartItem.with_selectedSupplierName item (Some (Supplier.name s)))
     = Some s).
Proof.
  intros Hj Hid Hoffers Hin. split.
  - unfold selectSupplierForItem. rewrite list_lookup_fmap, Hj. simpl.
    unfold setSupplier. destruct (decide _); [reflexivity|contradiction].
  - apply (selectedSupplier_by_name _ offers); [exact Hoffers|reflexivity|exact Hin].
Qed.

Lemma selectSupplierForItem_resolves_witness :
  [mismatched; widget] !! 1%nat = Some widget
  ∧ Supplier.mk "A" 10 ∈ [Supplier.mk "A" 10; Supplier.mk "B" 8]
  ∧ selectSupplierForItem 1 (Some "A") [mismatched; widget] !! 1%nat
    = Some (CartItem.with_selectedSupplierName widget (Some "A"))
  ∧ (NoDup (Supplier.name <$> [Supplier.mk "A" 10; Supplier.mk "B" 8]) →
     selectedSupplier (CartItem.with_selectedSupplierName widget (Some "A"))
     = Some (Supplier.mk "A" 10)).
Proof.
  assert (Hin : Supplier.mk "A" 10 ∈ [Supplier.mk "A" 10; Supplier.mk "B" 8])
    by apply list_elem_of_here.
  split; [reflexivity|]. split; [exact Hin|].
  destruct (selectSupplierForItem_resolves 1 [mismatched; widget] 1 widget
              [Supplier.mk "A" 10; Supplier.mk "B" 8] (Supplier.mk "A" 10)
              eq_refl eq_refl eq_refl Hin) as (H1 & _ & H3).
  split; [exact H1 | exact H3].
Defined.

(** X9: [selectSupplierForItem] checks nothing: given a name that none of
    the offers of the entry has, it stores the name, and the entry no longer
    resolves. *)
Theorem selectSupplierForItem_unknown_name (itemId : Z) (prev : list CartItem.t)
  (j : nat) (item : CartItem.t) (n : string) :
  prev !! j = Some item →
  CartItem.id item = itemId →
  (∀ offers s, CartItem.availableSuppliers item = Some offers → s ∈ offers →
               Supplier.name s ≠ n) →
  selectSupplierForItem itemId (Some n) prev !! j
  = Some (CartItem.with_selectedSupplierName item (Some n))
  ∧ ¬ resolves (CartItem.with_selectedSupplierName item (Some n)).
Proof.
  intros Hj Hid Hnone. split.
  - unfold selectSupplierForItem. rewrite list_lookup_fmap, Hj. simpl.
    unfold setSupplier. destruct (decide _); [reflexivity|contradiction].
  - unfold resolves, selectedSupplier. simpl.
    destruct (CartItem.availableSuppliers item) as [offers|] eqn:Hoffers.
    + intros [s Hs]. apply fmap_Some in Hs. destruct Hs as ([i s'] & Hfind & ->).
      apply list_find_Some in Hfind. destruct Hfind as (Hi & Hname & _).
      apply list_elem_of_lookup_2 in Hi. injection Hname as Hname.
      exact (Hnone offers s' eq_refl Hi Hname).
    + intros [s Hs]. discriminate Hs.
Qed.

Lemma selectSupplierForItem_unknown_name_witness :
  [mismatched; widget] !! 1%nat = Some widget
  ∧ (∀ offers s, CartItem.availableSuppliers widget = Some offers → s ∈ offers →
                 Supplier.name s ≠ "C")
  ∧ selectSupplierForItem 1 (Some "C") [mismatched; widget] !! 1%nat
    = Some (CartItem.with_selectedSupplierName widget (Some "C"))
  ∧ ¬ resolves (CartItem.with_selectedSupplierName widget (Some "C")).
Proof.
  assert (Hnone : ∀ offers s, CartItem.availableSuppliers widget = Some offers →
                              s ∈ offers → Supplier.name s ≠ "C").
  { intros offers s Hoffers Hin Hname. injection Hoffers as <-.
    apply elem_of_cons in Hin. destruct Hin as [->|Hin]; [discriminate Hname|].
    apply list_elem_of_singleton in Hin. subst s. discriminate Hname. }
  split; [reflexivity|]. split; [exact Hnone|].
  exact (selectSupplierForItem_unknown_name 1 [mismatched; widget] 1 widget "C"
           eq_refl eq_refl Hnone).
Defined.

(** ** Checkout after other operations *)

Lemma placeOrder_unselected (env : Env) (st : Store) :
  items st ≠ [] → ¬ Forall hasSelection (items st) →
  placeOrder env st = (st, [Alert SupplierNotSelected]).
Proof.
  intros Hne Hsel. unfold placeOrder.
  destruct (decide (length (items st) = 0%nat)) as [Hlen|_].
  { apply length_zero_iff_nil in Hlen. contradiction. }
  destruct (forallb _ (items st)) eqn:Hall; [|reflexivity].
  apply forallb_hasSelection in Hall. contradiction.
Qed.

Lemma succeeded_conditions (env : Env) (st : Store) :
  succeeded (placeOrder env st) →
  items st ≠ [] ∧ Forall hasSelection (items st) ∧ omap lineOf (items st) ≠ [].
Proof.
  intros Hsucc.
  assert (Habort : ¬ ∃ a, placeOrder env st = (st, [Alert a])).
  { intros [a Ha]. unfold succeeded in Hsucc. rewrite Ha in Hsucc. simpl in Hsucc.
    apply list_elem_of_singleton in Hsucc. discriminate. }
  split; [|split].
  - intros H. apply Habort, placeOrder_abort. auto.
  - destruct (decide (Forall hasSelection (items st))) as [H|H]; [exact H|].
    exfalso. apply Habort, placeOrder_abort. auto.
  - intros H. apply Habort, placeOrder_abort. auto.
Qed.

(** X10: once the selection of an id that is in the cart has been cleared,
    by [selectSupplierForItem] without a name or with the empty name,
    checkout is refused with the supplier alert and the store stays as it
    is. *)
Theorem placeOrder_after_clearing_selection (env : Env) (st : Store) (itemId : Z)
  (supplierName : option string) :
  (∃ item, item ∈ items st ∧ CartItem.id item = itemId) →
  truthy supplierName = false →
  placeOrder env (setItems (selectSupplierForItem itemId supplierName) st)
  = (setItems (selectSupplierForItem itemId supplierName) st,
     [Alert SupplierNotSelected]).
Proof.
  intros (item & Hin & Hid) Hfalsy. apply placeOrder_unselected; simpl.
  - intros Hnil. unfold selectSupplierForItem in Hnil.
    apply fmap_nil_inv in Hnil. rewrite Hnil in Hin. inversion Hin.
  - intros Hall. rewrite Forall_forall in Hall.
    specialize (Hall (setSupplier itemId supplierName item)).
    unfold hasSelection, setSupplier in Hall.
    destruct (decide (CartItem.id item = itemId)); [|contradiction].
    simpl in Hall. rewrite Hfalsy in Hall.
    assert (Hf : false = true); [|discriminate Hf].
    apply Hall. unfold selectSupplierForItem. apply list_elem_of_fmap.
    exists item. split; [|exact Hin].
    unfold setSupplier. destruct (decide _); [reflexivity|contradiction].
Qed.

Lemma placeOrder_after_clearing_selection_witness :
  (∃ item, item ∈ items (mkStore [widget] []) ∧ CartItem.id item = 1)
  ∧ truthy None = false
  ∧ placeOrder env0 (setItems (selectSupplierForItem 1 None) (mkStore [widget] []))
    = (setItems (selectSupplierForItem 1 None) (mkStore [widget] []),
       [Alert SupplierNotSelected]).
Proof.
  assert (Hex : ∃ item, item ∈ items (mkStore [widget] []) ∧ CartItem.id item = 1).
  { exists widget. split; [apply list_elem_of_here | reflexivity]. }
  split; [exact Hex|]. split; [reflexivity|].
  exact (placeOrder_after_clearing_selection env0 (mkStore [widget] []) 1 None
           Hex eq_refl).
Defined.

(** X11: a checkout that succeeded leaves an empty cart, so the next
    checkout of that store is refused with the empty-cart alert and adds no
    order. *)
Theorem placeOrder_twice (env env' : Env) (st : Store) :
  succeeded (placeOrder env st) →
  placeOrder env' (placeOrder env st).1
  = ((placeOrder env st).1, [Alert CartIsEmpty]).
Proof.
  intros Hsucc. destruct (succeeded_conditions env st Hsucc) as (Hne & Hsel & Hlines).
  rewrite (placeOrder_success env st Hne Hsel Hlines). reflexivity.
Qed.

Lemma placeOrder_twice_witness :
  succeeded (placeOrder env0 (mkStore [widget] []))
  ∧ placeOrder env0 (placeOrder env0 (mkStore [widget] [])).1
    = ((placeOrder env0 (mkStore [widget] [])).1, [Alert CartIsEmpty]).
Proof.
  assert (Hsucc : succeeded (placeOrder env0 (mkStore [widget] [])))
    by (vm_compute; apply list_elem_of_here).
  split; [exact Hsucc|].
  exact (placeOrder_twice env0 env0 (mkStore [widget] []) Hsucc).
Defined.

(** X12: the order a successful checkout creates carries the identifier
    and the date read from the environment and has at least one line; the
    total of each line is the product, a double, of its supplier price and
    its quantity; and the total amount is the sum of the line totals, added
    as doubles one after the other to zero, rounded to two decimals. *)
Theorem placeOrder_order_consistent (env : Env) (st : Store) :
  succeeded (placeOrder env st) →
  ∃ o,
    placeOrder env st = (mkStore [] (orders st ++ [o]), [CheckoutSuccess])
    ∧ Order.id o = orderId env
    ∧ Order.date o = localeString env
    ∧ Order.items o ≠ []
    ∧ (∀ line, line ∈ Order.items o →
         OrderItem.itemTotal line
         = PrimFloat.mul (OrderItem.supplierPrice line) (OrderItem.quantity line))
    ∧ Order.totalAmount o
      = toFixed2 (sumNumbers (OrderItem.itemTotal <$> Order.items o))
    ∧ roundedToCents (sumNumbers (OrderItem.itemTotal <$> Order.items o))
        (Order.totalAmount o).
Proof.
  intros Hsucc. destruct (succeeded_conditions env st Hsucc) as (Hne & Hsel & Hlines).
  rewrite (placeOrder_success env st Hne Hsel Hlines).
  eexists. split; [reflexivity|]. simpl.
  split; [reflexivity|]. split; [reflexivity|]. split; [exact Hlines|].
  split.
  - intros line Hin. apply omap_lineOf_origin in Hin.
    destruct Hin as (item & s & _ & _ & ->). reflexivity.
  - rewrite itemTotal_omap_lineOf. fold (cartTotal (items st)).
    split; [reflexivity | apply toFixed2_roundedToCents].
Qed.

Lemma placeOrder_order_consistent_witness :
  succeeded (placeOrder env0 (mkStore [mismatched; washers; shims] []))
  ∧ ∃ o,
      placeOrder env0 (mkStore [mismatched; washers; shims] [])
      = (mkStore [] (orders (mkStore [mismatched; washers; shims] []) ++ [o]),
         [CheckoutSuccess])
      ∧ Order.id o = orderId env0
      ∧ Order.date o = localeString env0
      ∧ Order.items o ≠ []
      ∧ (∀ line, line ∈ Order.items o →
           OrderItem.itemTotal line
           = PrimFloat.mul (OrderItem.supplierPrice line) (OrderItem.quantity line))
      ∧ Order.totalAmount o
        = toFixed2 (sumNumbers (OrderItem.itemTotal <$> Order.items o))
      ∧ roundedToCents (sumNumbers (OrderItem.itemTotal <$> Order.items o))
          (Order.totalAmount o).
Proof.
  assert (Hsucc : succeeded (placeOrder env0 (mkStore [mismatched; washers; shims] [])))
    by (vm_compute; apply list_elem_of_here).
  split; [exact Hsucc|].
  exact (placeOrder_order_consistent env0 (mkStore [mismatched; washers; shims] [])
           Hsucc).
Defined.

Lemma successCount_app (evs evs' : list Event) :
  successCount (evs ++ evs') = (successCount evs + successCount evs')%nat.
Proof. unfold successCount. rewrite filter_app, length_app. reflexivity. Qed.

Lemma step_successCount (op : Op) (st : Store) :
  length (orders (step op st).1)
  = (length (orders st) + successCount (step op st).2)%nat.
Proof.
  destruct op as [product|productId|productId quantity| |itemId supplierName|env];
    simpl; try (unfold successCount; simpl; lia).
  destruct (placeOrder_cases env st) as [[a ->]|[o ->]]; simpl.
  - unfold successCount. simpl. lia.
  - rewrite length_app. reflexivity.
Qed.

(** X13: over any run of operations, the order history grows by exactly
    one order for each call of the success callback. *)
Theorem run_successCount (ops : list Op) (st : Store) :
  length (orders (run ops st).1)
  = (length (orders st) + successCount (run ops st).2)%nat.
Proof.
  induction ops as [|op ops IH] using rev_ind.
  - unfold successCount. simpl. lia.
  - rewrite run_snoc. simpl. rewrite successCount_app, step_successCount, IH. lia.
Qed.

(** X14: a product whose offers are priced with numbers and have non-empty,
    pairwise distinct names, added without a selection to an empty cart, is
    checked out as one order of one line: the line has the id, the name and
    the quantity of the product, the name and the price of its lowest-price
    offer, the first one on a tie, and their product as its total; the total
    amount is that product, added to zero, rounded to two decimals. *)
Theorem addToCart_then_placeOrder (env : Env) (product : CartItem.t)
  (first : Supplier.t) (rest : list Supplier.t) (history : list Order.t) :
  CartItem.availableSuppliers product = Some (first :: rest) →
  (∀ s, s ∈ first :: rest → isNumber (Supplier.price s)) →
  (∀ s, s ∈ first :: rest → Supplier.name s ≠ "") →
  NoDup (Supplier.name <$> first :: rest) →
  ¬ hasSelection product →
  ∃ m line o,
    firstCheapest (first :: rest) m
    ∧ placeOrder env (mkStore (addToCart product []) history)
      = (mkStore [] (history ++ [o]), [CheckoutSuccess])
    ∧ Order.id o = orderId env
    ∧ Order.date o = localeString env
    ∧ Order.items o = [line]
    ∧ OrderItem.productId line = CartItem.id product
    ∧ OrderItem.productName line = CartItem.name product
    ∧ OrderItem.quantity line = CartItem.quantity product
    ∧ OrderItem.supplierName line = Supplier.name m
    ∧ OrderItem.supplierPrice line = Supplier.price m
    ∧ OrderItem.itemTotal line
      = PrimFloat.mul (Supplier.price m) (CartItem.quantity product)
    ∧ Order.totalAmount o
      = toFixed2 (PrimFloat.add 0
                    (PrimFloat.mul (Supplier.price m) (CartItem.quantity product)))
    ∧ roundedToCents
        (PrimFloat.add 0
           (PrimFloat.mul (Supplier.price m) (CartItem.quantity product)))
        (Order.totalAmount o).
Proof.
  intros Hoffers Hnum Hnames Hnd Hno.
  set (m := cheapestSupplier first rest) in *.
  set (item := CartItem.with_selectedSupplierName product (Some (Supplier.name m))).
  assert (Hadd : addToCart product [] = [item]).
  { unfold addToCart, itemToAdd. simpl. rewrite Hoffers.
    unfold hasSelection in Hno.
    destruct (truthy (CartItem.selectedSupplierName product)); [contradiction|].
    reflexivity. }
  assert (Hres : selectedSupplier item = Some m).
  { apply (selectedSupplier_by_name item (first :: rest) m);
      [exact Hoffers | reflexivity | apply cheapestSupplier_elem | exact Hnd]. }
  exists m, (orderItemOf item m). eexists.
  split; [apply cheapestSupplier_firstCheapest; exact Hnum|].
  rewrite Hadd. rewrite placeOrder_success; simpl.
  - unfold lineOf. rewrite Hres. simpl.
    split; [reflexivity|]. do 9 (split; [reflexivity|]).
    unfold cartTotal, resolvedTotal. simpl. rewrite Hres. simpl.
    split; [reflexivity | apply toFixed2_roundedToCents].
  - discriminate.
  - apply Forall_singleton. unfold hasSelection. simpl.
    apply bool_decide_eq_true. apply Hnames. apply cheapestSupplier_elem.
  - unfold lineOf. rewrite Hres. discriminate.
Qed.

Lemma addToCart_then_placeOrder_witness :
  ¬ hasSelection (CartItem.with_selectedSupplierName shims None)
  ∧ ∃ m line o,
      firstCheapest [Supplier.mk "A" 0.041666666666666664] m
      ∧ placeOrder env0
          (mkStore (addToCart (CartItem.with_selectedSupplierName shims None) []) [])
        = (mkStore [] ([] ++ [o]), [CheckoutSuccess])
      ∧ Order.id o = orderId env0
      ∧ Order.date o = localeString env0
      ∧ Order.items o = [line]
      ∧ OrderItem.productId line
        = CartItem.id (CartItem.with_selectedSupplierName shims None)
      ∧ OrderItem.productName line
        = CartItem.name (CartItem.with_selectedSupplierName shims None)
      ∧ OrderItem.quantity line
        = CartItem.quantity (CartItem.with_selectedSupplierName shims None)
      ∧ OrderItem.supplierName line = Supplier.name m
      ∧ OrderItem.supplierPrice line = Supplier.price m
      ∧ OrderItem.itemTotal line
        = PrimFloat.mul (Supplier.price m)
            (CartItem.quantity (CartItem.with_selectedSupplierName shims None))
      ∧ Order.totalAmount o
        = toFixed2 (PrimFloat.add 0
                      (PrimFloat.mul (Supplier.price m)
                         (CartItem.quantity
                            (CartItem.with_selectedSupplierName shims None))))
      ∧ roundedToCents
          (PrimFloat.add 0
             (PrimFloat.mul (Supplier.price m)
                (CartItem.quantity (CartItem.with_selectedSupplierName shims None))))
          (Order.totalAmount o).
Proof.
  assert (Hno : ¬ hasSelection (CartItem.with_selectedSupplierName shims None))
    by (unfold hasSelection; simpl; discriminate).
  assert (Hnum : ∀ s, s ∈ [Supplier.mk "A" 0.041666666666666664] →
                      isNumber (Supplier.price s)).
  { intros s Hin. apply list_elem_of_singleton in Hin. subst s. reflexivity. }
  assert (Hnames : ∀ s, s ∈ [Supplier.mk "A" 0.041666666666666664] →
                        Supplier.name s ≠ "").
  { intros s Hin. apply list_elem_of_singleton in Hin. subst s. discriminate. }
  assert (Hnd : NoDup (Supplier.name <$> [Supplier.mk "A" 0.041666666666666664]))
    by (simpl; apply NoDup_singleton).
  split; [exact Hno|].
  exact (addToCart_then_placeOrder env0 (CartItem.with_selectedSupplierName shims None)
           (Supplier.mk "A" 0.041666666666666664) [] [] eq_refl Hnum Hnames Hnd Hno).
Defined.

Example addToCart_then_placeOrder_shims :
  placeOrder env0
    (mkStore (addToCart (CartItem.with_selectedSupplierName shims None) []) [])
  = (mkStore []
       [Order.mk "ORDER-1700000000000-42" "01.01.2024, 12:00:00"
          [OrderItem.mk 5 "Shim" 3 "A" 0.041666666666666664 0.125] 0.13],
     [CheckoutSuccess]).
Proof. vm_compute. reflexivity. Qed.

(** ** Initialisation and persistence *)

Lemma loadItem_idempotent (item : CartItem.t) : loadItem (loadItem item) = loadItem item.
Proof.
  destruct (CartItem.availableSuppliers item) as [[|first rest]|] eqn:Hoffers.
  - unfold loadItem at 2. rewrite Hoffers. unfold loadItem. rewrite Hoffers.
    reflexivity.
  - pose proof (loadItem_selects_cheapest item first rest Hoffers) as Hsel.
    pose proof (loadItem_availableSuppliers item) as Hav. rewrite Hoffers in Hav.
    destruct (loadItem item) as [id name quantity offers selected].
    simpl in Hsel, Hav. subst offers selected.
    unfold loadItem. simpl.
    destruct (_ || _); reflexivity.
  - unfold loadItem at 2. rewrite Hoffers. unfold loadItem. rewrite Hoffers.
    reflexivity.
Qed.

(** X15: the selections that loading derives are stable: the cart of a
    store that came out of initialisation is left as it is by the selection
    of cheapest offers; and when the numbers of that store are finite and
    are not the negative zero, the store is reproduced exactly by writing it
    to storage and initialising again. *)
Theorem initStore_persist_fixpoint (storage storage' : gmap string json) (st : Store) :
  initStore storage = Some st →
  loadItem <$> items st = items st
  ∧ (stableStore st → initStore (persist st storage') = Some st).
Proof.
  intros Hinit. destruct (initStore_items storage st Hinit) as [loaded Hitems].
  assert (Hfix : loadItem <$> items st = items st).
  { rewrite Hitems, <- list_fmap_compose.
    apply list_fmap_ext. intros i item _. simpl. apply loadItem_idempotent. }
  split; [exact Hfix|].
  intros Hst. rewrite (initStore_persist st storage' Hst), Hfix.
  destruct st. reflexivity.
Qed.

Lemma initStore_persist_fixpoint_witness :
  initStore (persist (mkStore [unselected; widget] [widgetOrder]) ∅)
  = Some (mkStore [CartItem.with_selectedSupplierName unselected (Some "A"); widget]
            [widgetOrder])
  ∧ stableStore
      (mkStore [CartItem.with_selectedSupplierName unselected (Some "A"); widget]
         [widgetOrder])
  ∧ loadItem <$> [CartItem.with_selectedSupplierName unselected (Some "A"); widget]
    = [CartItem.with_selectedSupplierName unselected (Some "A"); widget]
  ∧ initStore
      (persist
         (mkStore [CartItem.with_selectedSupplierName unselected (Some "A"); widget]
            [widgetOrder])
         ∅)
    = Some (mkStore [CartItem.with_selectedSupplierName unselected (Some "A"); widget]
              [widgetOrder]).
Proof.
  assert (Hinit : initStore (persist (mkStore [unselected; widget] [widgetOrder]) ∅)
    = Some (mkStore [CartItem.with_selectedSupplierName unselected (Some "A"); widget]
              [widgetOrder]))
    by (vm_compute; reflexivity).
  assert (Hst : stableStore
      (mkStore [CartItem.with_selectedSupplierName unselected (Some "A"); widget]
         [widgetOrder])).
  { split; simpl.
    - apply Forall_cons. split; [exact stableItem_unselected|].
      apply Forall_singleton. exact stableItem_widget.
    - apply Forall_singleton. exact stableOrder_widgetOrder. }
  split; [exact Hinit|]. split; [exact Hst|].
  destruct (initStore_persist_fixpoint _ ∅ _ Hinit) as [Hfix Hagain].
  split; [exact Hfix | exact (Hagain Hst)].
Defined.

(** A numeral beyond the range of doubles is read as the infinity, which
    is written back as [null]. *)
Example initStore_reads_infinity :
  initStore
    (<["cartItems" :=
         JArray [JObject [("id", JInteger 1); ("name", JString "Widget");
                          ("quantity", JNumber infinity)]]]> ∅)
  = Some (mkStore [CartItem.mk 1 "Widget" infinity None None] [])
  ∧ initStore (persist (mkStore [CartItem.mk 1 "Widget" infinity None None] []) ∅)
    = None.
Proof. split; vm_compute; reflexivity. Qed.

(** X16: a key that is not in storage reads as the empty list, and the two
    keys are read independently: without either key the store starts empty;
    without the cart key the saved orders are loaded with an empty cart, and
    without the orders key the saved cart is loaded with an empty history,
    whatever was saved that reads as a list of orders or of cart items, and
    in particular what the persistence effects write for lists whose numbers
    are finite and are not the negative zero. *)
Theorem initStore_missing_keys (storage : gmap string json)
  (savedCart savedOrders : json)
  (saved : list CartItem.t) (history : list Order.t) :
  (storage !! "cartItems" = None → storage !! "orders" = None →
   initStore storage = Some (mkStore [] []))
  ∧ (storage !! "cartItems" = None →
     asArray orderOfJson savedOrders = Some history →
     initStore (<["orders" := savedOrders]> storage) = Some (mkStore [] history))
  ∧ (storage !! "orders" = None →
     asArray cartItemOfJson savedCart = Some saved →
     initStore (<["cartItems" := savedCart]> storage)
     = Some (mkStore (loadItem <$> saved) []))
  ∧ (storage !! "cartItems" = None → Forall stableOrder history →
     initStore (<["orders" := JArray (jsonOfOrder <$> history)]> storage)
     = Some (mkStore [] history))
  ∧ (storage !! "orders" = None → Forall stableItem saved →
     initStore (<["cartItems" := JArray (jsonOfCartItem <$> saved)]> storage)
     = Some (mkStore (loadItem <$> saved) [])).
Proof.
  assert (Horders : ∀ v, storage !! "cartItems" = None →
            asArray orderOfJson v = Some history →
            initStore (<["orders" := v]> storage) = Some (mkStore [] history)).
  { intros v Hc Hv. unfold initStore.
    rewrite lookup_insert_eq.
    rewrite (lookup_insert_ne _ "orders" "cartItems") by (intros Heq; discriminate Heq).
    rewrite Hc, Hv. reflexivity. }
  assert (Hcart : ∀ v, storage !! "orders" = None →
            asArray cartItemOfJson v = Some saved →
            initStore (<["cartItems" := v]> storage)
            = Some (mkStore (loadItem <$> saved) [])).
  { intros v Ho Hv. unfold initStore.
    rewrite lookup_insert_eq.
    rewrite (lookup_insert_ne _ "cartItems" "orders") by (intros Heq; discriminate Heq).
    rewrite Ho, Hv. reflexivity. }
  split; [|split; [|split; [|split]]].
  - intros Hc Ho. unfold initStore. rewrite Hc, Ho. reflexivity.
  - apply Horders.
  - apply Hcart.
  - intros Hc Hst. apply Horders; [exact Hc|].
    exact (asArray_round_trip orderOfJson jsonOfOrder stableOrder _
             order_round_trip Hst).
  - intros Ho Hst. apply Hcart; [exact Ho|].
    exact (asArray_round_trip cartItemOfJson jsonOfCartItem stableItem _
             cartItem_round_trip Hst).
Qed.

Lemma initStore_missing_keys_witness :
  (∅ : gmap string json) !! "cartItems" = None
  ∧ (∅ : gmap string json) !! "orders" = None
  ∧ Forall stableItem [unselected]
  ∧ Forall stableOrder [widgetOrder]
  ∧ initStore ∅ = Some (mkStore [] [])
  ∧ initStore (<["orders" := JArray (jsonOfOrder <$> [widgetOrder])]> ∅)
    = Some (mkStore [] [widgetOrder])
  ∧ initStore (<["cartItems" := JArray (jsonOfCartItem <$> [unselected])]> ∅)
    = Some (mkStore (loadItem <$> [unselected]) []).
Proof.
  assert (Hitems : Forall stableItem [unselected])
    by (apply Forall_singleton; exact stableItem_unselected).
  assert (Horders : Forall stableOrder [widgetOrder])
    by (apply Forall_singleton; exact stableOrder_widgetOrder).
  destruct (initStore_missing_keys ∅ JNull JNull [unselected] [widgetOrder])
    as (H1 & _ & _ & H4 & H5).
  split; [reflexivity|]. split; [reflexivity|].
  split; [exact Hitems|]. split; [exact Horders|].
  split; [exact (H1 eq_refl eq_refl)|].
  split; [exact (H4 eq_refl Horders) | exact (H5 eq_refl Hitems)].
Defined.

(** X17: each persistence write puts the whole cart list under
    [cartItems] and the whole order list under [orders], whatever was there,
    so that only the last state written can be read back, and it touches no
    other key of the storage. *)
Theorem persist_overwrites (st1 st2 : Store) (storage : gmap string json) :
  persist st2 storage !! "cartItems" = Some (JArray (jsonOfCartItem <$> items st2))
  ∧ persist st2 storage !! "orders" = Some (JArray (jsonOfOrder <$> orders st2))
  ∧ persist st2 (persist st1 storage) = persist st2 storage
  ∧ ∀ key, key ≠ "cartItems" → key ≠ "orders" →
           persist st2 storage !! key = storage !! key.
Proof.
  split; [|split; [|split]].
  - unfold persist.
    rewrite (lookup_insert_ne _ "orders" "cartItems") by (intros Heq; discriminate Heq).
    apply lookup_insert_eq.
  - unfold persist. apply lookup_insert_eq.
  - apply map_eq. intros key. unfold persist.
    destruct (decide (key = "orders")) as [->|Ho].
    { rewrite !lookup_insert_eq. reflexivity. }
    rewrite (lookup_insert_ne _ "orders" key) by congruence.
    rewrite (lookup_insert_ne _ "orders" key) by congruence.
    destruct (decide (key = "cartItems")) as [->|Hc].
    { rewrite !lookup_insert_eq. reflexivity. }
    rewrite !lookup_insert_ne by congruence. reflexivity.
  - intros key Hc Ho. unfold persist.
    rewrite !lookup_insert_ne by congruence. reflexivity.
Qed.

Example persist_widget :
  persist (mkStore [CartItem.mk 1 "Widget" 1.5 None None] []) ∅
  = <["orders" := JArray []]>
      (<["cartItems" :=
           JArray [JObject [("id", JInteger 1); ("name", JString "Widget");
                            ("quantity", JNumber 1.5)]]]> ∅).
Proof. reflexivity. Qed.

(** ** Order identifiers: when two of them are equal *)

Lemma string_app_nil (s : string) : "" +:+ s = s.
Proof. reflexivity. Qed.

Lemma string_app_cons (c : ascii) (s t : string) :
  String c s +:+ t = String c (s +:+ t).
Proof. reflexivity. Qed.

Lemma dashFree_cons (c : ascii) (s : string) :
  dashFree (String c s) = true → c ≠ "-"%char ∧ dashFree s = true.
Proof.
  simpl. intros [Hc Hs]%andb_true_iff. apply bool_decide_eq_true in Hc. auto.
Qed.

Lemma split_at_dash (u u' r r' : string) :
  dashFree u = true → dashFree u' = true →
  u +:+ String "-" r = u' +:+ String "-" r' → u = u' ∧ r = r'.
Proof.
  revert u'. induction u as [|c u IH]; intros [|c' u'] Hu Hu' Heq;
    rewrite ?string_app_nil, ?string_app_cons in Heq.
  - injection Heq as ->. auto.
  - injection Heq as <- _. apply dashFree_cons in Hu'. destruct Hu' as [Hc _].
    contradiction.
  - injection Heq as -> _. apply dashFree_cons in Hu. destruct Hu as [Hc _].
    contradiction.
  - injection Heq as -> Heq.
    apply dashFree_cons in Hu. apply dashFree_cons in Hu'.
    destruct (IH u' (proj2 Hu) (proj2 Hu') Heq) as [-> ->]. auto.
Qed.

Lemma dashFree_digit (d : N) (s : string) :
  dashFree (String (pretty_N_char d) s) = dashFree s.
Proof. unfold pretty_N_char. repeat case_match; reflexivity. Qed.

Lemma pretty_N_go_dashFree (x : N) (s : string) :
  dashFree s = true → dashFree (pretty_N_go x s) = true.
Proof.
  revert s. induction (N.lt_wf_0 x) as [x _ IH]; intros s Hs.
  destruct (decide (x = 0)%N) as [->|Hx].
  - rewrite pretty_N_go_0. exact Hs.
  - rewrite pretty_N_go_step by lia. apply IH.
    + apply N.div_lt; lia.
    + rewrite dashFree_digit. exact Hs.
Qed.

Lemma pretty_N_go_length (x : N) (s : string) :
  (String.length s ≤ String.length (pretty_N_go x s))%nat.
Proof.
  revert s. induction (N.lt_wf_0 x) as [x _ IH]; intros s.
  destruct (decide (x = 0)%N) as [->|Hx].
  - rewrite pretty_N_go_0. lia.
  - rewrite pretty_N_go_step by lia.
    etrans; [|apply IH; apply N.div_lt; lia]. simpl. lia.
Qed.

Lemma pretty_N_digits (x : N) :
  dashFree (pretty x) = true ∧ pretty x ≠ "".
Proof.
  unfold pretty, pretty_N. destruct (decide (x = 0)%N) as [->|Hx].
  - split; [reflexivity | discriminate].
  - split; [apply pretty_N_go_dashFree; reflexivity|].
    rewrite pretty_N_go_step by lia. intros Hnil.
    pose proof (pretty_N_go_length (x `div` 10)
                  (String (pretty_N_char (x `mod` 10)) "")) as Hlen.
    rewrite Hnil in Hlen. simpl in Hlen. lia.
Qed.

(** The decimal numeral of an integer: digits, after a dash when it is
    negative. *)
Lemma pretty_Z_shape (z : Z) :
  ∃ u, dashFree u = true ∧ u ≠ ""
       ∧ (pretty z = u ∨ pretty z = "-" +:+ u).
Proof.
  destruct z as [|p|p].
  - exists "0". split; [reflexivity|]. split; [discriminate|]. left. reflexivity.
  - exists (pretty (N.pos p)).
    destruct (pretty_N_digits (N.pos p)) as [Hd Hne]. auto.
  - exists (pretty (N.pos p)).
    destruct (pretty_N_digits (N.pos p)) as [Hd Hne]. auto.
Qed.

Lemma numerals_split (a a' b b' : Z) :
  pretty a +:+ String "-" (pretty b) = pretty a' +:+ String "-" (pretty b') →
  a = a' ∧ b = b'.
Proof.
  intros Heq.
  destruct (pretty_Z_shape a) as (u & Hu & Hune & Ha).
  destruct (pretty_Z_shape a') as (u' & Hu' & Hune' & Ha').
  assert (Hsplit : pretty a = pretty a' ∧ pretty b = pretty b').
  { destruct Ha as [Ha|Ha], Ha' as [Ha'|Ha']; rewrite Ha, Ha' in *.
    - destruct (split_at_dash u u' _ _ Hu Hu' Heq) as [-> ->]. auto.
    - exfalso. destruct u as [|c u]; [contradiction|].
      rewrite !string_app_cons in Heq. injection Heq as -> _.
      apply dashFree_cons in Hu. destruct Hu as [Hc _]. contradiction.
    - exfalso. destruct u' as [|c u']; [contradiction|].
      rewrite !string_app_cons in Heq. injection Heq as <- _.
      apply dashFree_cons in Hu'. destruct Hu' as [Hc _]. contradiction.
    - rewrite !string_app_cons, !string_app_nil in Heq. injection Heq as Heq.
      destruct (split_at_dash u u' _ _ Hu Hu' Heq) as [-> ->]. auto. }
  destruct Hsplit as [H1 H2].
  split; apply (inj pretty); assumption.
Qed.

Lemma orderId_inj (env env' : Env) :
  orderId env = orderId env' →
  now env = now env' ∧ random1000 env = random1000 env'.
Proof.
  unfold orderId. intros Heq.
  rewrite !string_app_cons, !string_app_nil in Heq. injection Heq as Heq.
  apply numerals_split. exact Heq.
Qed.

(** X18: two order identifiers are equal exactly when both the clock value
    and the random value they were made from are equal. *)
Theorem orderId_eq_iff (env env' : Env) :
  orderId env = orderId env'
  ↔ now env = now env' ∧ random1000 env = random1000 env'.
Proof.
  split.
  - apply orderId_inj.
  - intros [H1 H2]. unfold orderId. rewrite H1, H2. reflexivity.
Qed.

Lemma placeOrder_cases_id (env : Env) (st : Store) :
  (∃ a, placeOrder env st = (st, [Alert a]))
  ∨ (∃ o, placeOrder env st = (mkStore [] (orders st ++ [o]), [CheckoutSuccess])
          ∧ Order.id o = orderId env).
Proof.
  destruct (decide (items st = [])) as [He|Hne].
  { left. apply placeOrder_abort. auto. }
  destruct (decide (Forall hasSelection (items st))) as [Hs|Hs].
  2: { left. apply placeOrder_abort. auto. }
  destruct (decide (omap lineOf (items st) = [])) as [Hl|Hl].
  { left. apply placeOrder_abort. auto. }
  right. eexists. split; [apply placeOrder_success; assumption | reflexivity].
Qed.

Lemma run_order_ids (ops : list Op) (st : Store) :
  ∃ envs, envs `sublist_of` placeOrderEnvs ops
          ∧ Order.id <$> orders (run ops st).1
            = (Order.id <$> orders st) ++ (orderId <$> envs).
Proof.
  induction ops as [|op ops IH] using rev_ind.
  - exists []. split; [reflexivity|]. simpl. rewrite app_nil_r. reflexivity.
  - destruct IH as (envs & Hsub & Hids). rewrite run_snoc. simpl.
    unfold placeOrderEnvs. rewrite omap_app. fold (placeOrderEnvs ops).
    destruct op as [product|productId|productId quantity| |itemId supplierName|env];
      simpl; try (exists envs; split; [rewrite app_nil_r; exact Hsub | exact Hids]).
    destruct (placeOrder_cases_id env (run ops st).1) as [[a ->]|(o & -> & Hid)]; simpl.
    + exists envs. split; [|exact Hids].
      apply sublist_inserts_r. exact Hsub.
    + exists (envs ++ [env]). split.
      * apply sublist_app; [exact Hsub | reflexivity].
      * rewrite !fmap_app, Hids. simpl. rewrite Hid, app_assoc. reflexivity.
Qed.

Lemma NoDup_fmap_finer {A B C} (f : A → B) (g : A → C) (l : list A) :
  (∀ x y, g x = g y → f x = f y) → NoDup (f <$> l) → NoDup (g <$> l).
Proof.
  intros Hfg. induction l as [|x l IH]; intros Hnd; [constructor|].
  rewrite fmap_cons in *. apply NoDup_cons in Hnd. destruct Hnd as [Hx Hnd].
  apply NoDup_cons. split; [|auto].
  intros Hin. apply Hx. apply list_elem_of_fmap in Hin.
  destruct Hin as (y & Hy & Hin). apply list_elem_of_fmap.
  exists y. split; [apply Hfg; exact Hy | exact Hin].
Qed.

(** X19: starting from an empty order history, if no two checkouts of a
    run read the same pair of clock value and random value, the identifiers
    of the orders in the history are pairwise distinct. *)
Theorem order_ids_distinct (ops : list Op) (st : Store) :
  orders st = [] →
  NoDup ((λ env, (now env, random1000 env)) <$> placeOrderEnvs ops) →
  NoDup (Order.id <$> orders (run ops st).1).
Proof.
  intros Hempty Hnd.
  destruct (run_order_ids ops st) as (envs & Hsub & Hids).
  rewrite Hids, Hempty. simpl.
  assert (Hall : NoDup (orderId <$> placeOrderEnvs ops)).
  2: { apply (sublist_NoDup _ _ Hall). apply fmap_sublist. exact Hsub. }
  revert Hnd. apply NoDup_fmap_finer. intros x y Hxy.
  apply orderId_inj in Hxy. destruct Hxy as [-> ->]. reflexivity.
Qed.

Lemma order_ids_distinct_witness :
  orders (mkStore [] []) = []
  ∧ NoDup ((λ env, (now env, random1000 env))
             <$> placeOrderEnvs [AddToCart widget; PlaceOrder env0; AddToCart widget;
                                 PlaceOrder (mkEnv 1700000000000 43 "")])
  ∧ NoDup (Order.id <$> orders
             (run [AddToCart widget; PlaceOrder env0; AddToCart widget;
                   PlaceOrder (mkEnv 1700000000000 43 "")] (mkStore [] [])).1).
Proof.
  assert (Hnd : NoDup ((λ env, (now env, random1000 env))
             <$> placeOrderEnvs [AddToCart widget; PlaceOrder env0; AddToCart widget;
                                 PlaceOrder (mkEnv 1700000000000 43 "")])).
  { simpl. apply NoDup_cons. split; [|apply NoDup_singleton].
    intros Hin. apply list_elem_of_singleton in Hin. discriminate Hin. }
  split; [reflexivity|]. split; [exact Hnd|].
  exact (order_ids_distinct _ (mkStore [] []) eq_refl Hnd).
Defined.

(** ** The login form *)

Lemma typeAll_snoc (changes : list (string * string)) (change : string * string) :
  typeAll (changes ++ [change])
  = handleChange change.1 change.2 (typeAll changes).
Proof. unfold typeAll. rewrite foldl_snoc. reflexivity. Qed.

Lemma lastTyped_snoc (name : string) (changes : list (string * string))
  (change : string * string) :
  lastTyped name (changes ++ [change])
  = if decide (change.1 = name) then change.2 else lastTyped name changes.
Proof. unfold lastTyped. rewrite foldl_snoc. reflexivity. Qed.

Lemma typeAll_lookup (changes : list (string * string)) (key : string) :
  key = "email" ∨ key = "password" →
  typeAll changes !! key = Some (lastTyped key changes).
Proof.
  intros Hkey. induction changes as [|change changes IH] using rev_ind.
  - destruct Hkey as [-> | ->]; reflexivity.
  - rewrite typeAll_snoc, lastTyped_snoc. unfold handleChange.
    destruct (decide (change.1 = key)) as [<-|Hne].
    + apply lookup_insert_eq.
    + rewrite lookup_insert_ne by exact Hne. exact IH.
Qed.

(** X20: whatever was typed, and in whatever order, submitting the form
    first cancels the browser's own submission and then sends one POST to
    [/login] whose body holds, under [email] and under [password], the last
    value typed into that input, the empty string for an input never typed
    into; the response is logged when the request succeeds, and nothing more
    happens when it fails. *)
Theorem handleSubmit_posts_last_typed {R} (changes : list (string * string))
  (response : option R) :
  ∃ body,
    handleSubmit response (typeAll changes)
    = PreventDefault :: Post "/login" body ::
      match response with Some result => [ConsoleLog result] | None => [] end
    ∧ body !! "email" = Some (lastTyped "email" changes)
    ∧ body !! "password" = Some (lastTyped "password" changes).
Proof.
  exists (typeAll changes). split; [reflexivity|].
  split; apply typeAll_lookup; auto.
Qed.

Example login_typed_twice :
  handleSubmit (R := unit) None
    (typeAll [("email", "a@b"); ("password", "x"); ("email", "c@d")])
  = [PreventDefault;
     Post "/login" (<["password" := "x"]> (<["email" := "c@d"]> ∅))].
Proof. vm_compute. reflexivity. Qed.

#[local] Set Warnings "-clear-no-such-hyp".

(** X21: the form data always has the two properties [email] and
    [password]; beyond them it has exactly the names of the change events it
    received, so that it has no other property when every change event comes
    from one of the two inputs. *)
Theorem typeAll_properties (changes : list (string * string)) :
  dom (typeAll changes)
  = ({["email"; "password"]} ∪ list_to_set changes.*1 : gset string)
  ∧ ((∀ change, change ∈ changes → change.1 = "email" ∨ change.1 = "password") →
     dom (typeAll changes) = ({["email"; "password"]} : gset string)).
Proof.
  assert (Hdom : dom (typeAll changes)
                 = ({["email"; "password"]} ∪ list_to_set changes.*1 : gset string)).
  { induction changes as [|change changes IH] using rev_ind.
    - unfold typeAll, initialFormData. simpl.
      rewrite !dom_insert_L, dom_empty_L. set_solver.
    - rewrite typeAll_snoc. unfold handleChange.
      rewrite dom_insert_L, IH, fmap_app, list_to_set_app_L. simpl. set_solver. }
  split; [exact Hdom|].
  intros Hnames. rewrite Hdom.
  assert (Hsub : (list_to_set changes.*1 : gset string) ⊆ {["email"; "password"]}).
  { intros name Hin. apply elem_of_list_to_set, list_elem_of_fmap in Hin.
    destruct Hin as (change & -> & Hin).
    destruct (Hnames change Hin) as [-> | ->]; set_solver. }
  set_solver.
Qed.

Lemma typeAll_properties_witness :
  (∀ change, change ∈ [("email", "a@b"); ("password", "x")] →
             change.1 = "email" ∨ change.1 = "password")
  ∧ dom (typeAll [("email", "a@b"); ("password", "x")])
    = ({["email"; "password"]} : gset string).
Proof.
  assert (Hnames : ∀ change, change ∈ [("email", "a@b"); ("password", "x")] →
                             change.1 = "email" ∨ change.1 = "password").
  { intros change Hin. apply elem_of_cons in Hin. destruct Hin as [->|Hin].
    - left. reflexivity.
    - apply list_elem_of_singleton in Hin. subst change. right. reflexivity. }
  split; [exact Hnames|].
  exact (proj2 (typeAll_properties [("email", "a@b"); ("password", "x")]) Hnames).
Defined.

(** ** Selection by id *)

(** X22: [selectSupplierForItem] works on the id, not on one line: every
    entry of that id gets the given selection, also when the cart has
    several entries of the id; the entries of other ids, and the ids, names,
    quantities and offers of all entries, stay as they are. *)
Theorem selectSupplierForItem_by_id (itemId : Z) (supplierName : option string)
  (prev : list CartItem.t) :
  Forall2
    (λ item item',
       CartItem.id item' = CartItem.id item
       ∧ CartItem.name item' = CartItem.name item
       ∧ CartItem.quantity item' = CartItem.quantity item
       ∧ CartItem.availableSuppliers item' = CartItem.availableSuppliers item
       ∧ CartItem.selectedSupplierName item'
         = if decide (CartItem.id item = itemId)
           then supplierName else CartItem.selectedSupplierName item)
    prev (selectSupplierForItem itemId supplierName prev).
Proof.
  unfold selectSupplierForItem.
  apply Forall2_fmap_r, Forall_Forall2_diag, Forall_forall.
  intros item _. cbv beta. unfold setSupplier.
  destruct (decide (CartItem.id item = itemId)) as [He|Hne]; simpl.
  - destruct (decide (CartItem.id item = itemId)); [|contradiction].
    repeat split; reflexivity.
  - destruct (decide (CartItem.id item = itemId)); [contradiction|].
    repeat split; reflexivity.
Qed.

Example selectSupplierForItem_two_lines :
  selectSupplierForItem 1 (Some "A")
    [widget; CartItem.with_selectedSupplierName widget (Some "A"); mismatched]
  = [CartItem.with_selectedSupplierName widget (Some "A");
     CartItem.with_selectedSupplierName widget (Some "A"); mismatched].
Proof. reflexivity. Qed.
